(** * Rhasspy dialogue manager (Hermes): session state machine

    A shallow embedding of [rhasspydialogue_hermes/__init__.py].

    - [SessionInfo] objects are mutable and shared by reference between
      [self.session] and [self.session_queue]; they live in a store
      ([objects]) and are named by their allocation index.
    - An (async) generator is embedded as a state-passing computation that
      returns the messages it yields, in emission order, together with the
      final state of the [DialogueHermesMqtt] object and the way the body
      finished (returned, or raised an exception).  A handler that is
      driven runs to completion before the next one starts.
    - Calling a handler only builds its generator object.  [on_message]
      hands these objects to [asyncio.run_coroutine_threadsafe], which
      takes coroutines only, or drops them: see [on_message].
    - Random and timed inputs are explicit: the value drawn by [uuid4()] is
      an argument of the handler that draws it, and the delays after which
      the text-to-speech service acknowledges are read from
      [say_finished_delays]. *)

From Stdlib Require Import String List Bool Arith Lia.
Import ListNotations.
Open Scope string_scope.
Open Scope list_scope.

(** ** Hermes message types used by the dialogue manager *)

Inductive DialogueSessionTerminationReason : Type :=
| NOMINAL
| ABORTED_BY_USER
| INTENT_NOT_RECOGNIZED
| TIMEOUT
| ERROR.

(** [start_session.init]: a [DialogueNotification] or a [DialogueAction]
    (the [type] field is the constructor; an [init] received as a mapping
    is the object [start_session] first converts it to).  Apart from
    [canBeEnqueued] the fields of an action have defaults: empty text, no
    filter, [False]. *)
Inductive DialogueInit : Type :=
| DialogueNotification (text : string)
| DialogueAction (canBeEnqueued : bool) (text : string)
                 (intentFilter : option (list string))
                 (sendIntentNotRecognized : bool).

Module DialogueStartSession.
Record t : Type := mk {
  init : DialogueInit;
  siteId : string;
  customData : string
}.
End DialogueStartSession.

Module DialogueContinueSession.
Record t : Type := mk {
  sessionId : string;
  customData : string;
  text : string;
  intentFilter : option (list string);
  sendIntentNotRecognized : bool
}.
End DialogueContinueSession.

Module DialogueEndSession.
Record t : Type := mk {
  sessionId : string;
  text : string
}.
End DialogueEndSession.

Module AsrTextCaptured.
Record t : Type := mk {
  text : string;
  siteId : string;
  sessionId : string
}.
End AsrTextCaptured.

Module NluIntent.
Record t : Type := mk {
  input : string;
  intentName : string;
  siteId : string;
  sessionId : string
}.
End NluIntent.

Module NluIntentNotRecognized.
Record t : Type := mk {
  input : string;
  siteId : string;
  sessionId : string
}.
End NluIntentNotRecognized.

Module HotwordDetected.
Record t : Type := mk {
  modelId : string;
  siteId : string
}.

(** [HotwordDetected.topic(wakewordId=w)] *)
Definition topic (wakewordId : string) : string :=
  "hermes/hotword/" ++ wakewordId ++ "/detected".
End HotwordDetected.

(** Messages yielded by the handlers. *)
Inductive Message : Type :=
| TtsSay (siteId sessionId text : string)
| DialogueSessionStarted (siteId sessionId customData : string)
| DialogueSessionQueued (sessionId siteId customData : string)
| DialogueSessionEnded (sessionId siteId customData : string)
                       (termination : DialogueSessionTerminationReason)
| AsrStartListening (siteId sessionId : string)
| AsrStopListening (siteId sessionId : string)
| NluQuery (input : string) (intentFilter : option (list string))
           (sessionId : string)
| DialogueIntentNotRecognized (sessionId customData siteId input : string).

(** ** Sessions and the dialogue manager object *)

Module SessionInfo.
Record t : Type := mk {
  sessionId : string;
  siteId : string;
  start_session : DialogueStartSession.t;
  customData : string;
  intentFilter : option (list string);
  sendIntentNotRecognized : bool;
  continue_session : option DialogueContinueSession.t
}.

(** [SessionInfo(sessionId=.., siteId=.., start_session=..)] with the
    [attr.ib] defaults of the other fields. *)
Definition new (sessionId siteId : string)
           (start_session : DialogueStartSession.t) : t :=
  mk sessionId siteId start_session EmptyString None false None.

Definition set_customData (v : string) (s : t) : t :=
  mk (sessionId s) (siteId s) (start_session s) v (intentFilter s)
     (sendIntentNotRecognized s) (continue_session s).

Definition set_intentFilter (v : option (list string)) (s : t) : t :=
  mk (sessionId s) (siteId s) (start_session s) (customData s) v
     (sendIntentNotRecognized s) (continue_session s).

Definition set_sendIntentNotRecognized (v : bool) (s : t) : t :=
  mk (sessionId s) (siteId s) (start_session s) (customData s)
     (intentFilter s) v (continue_session s).
End SessionInfo.

(** A reference to a [SessionInfo] object: its allocation index. *)
Definition ref : Type := nat.

Record DialogueHermesMqtt : Type := mkDialogueHermesMqtt {
  siteIds : list string;
  wakeword_topics : list (string * string);
  session : option ref;
  session_queue : list ref;
  say_finished_event : bool;
  say_finished_timeout : nat;
  (* the object store *)
  objects : ref -> SessionInfo.t;
  next_ref : ref;
  (* environment: for each coming wait, the delay in seconds after which
     TtsSayFinished sets the event, None when it never does *)
  say_finished_delays : list (option nat)
}.

Definition set_session (v : option ref) (self : DialogueHermesMqtt) :=
  mkDialogueHermesMqtt (siteIds self) (wakeword_topics self) v
    (session_queue self) (say_finished_event self)
    (say_finished_timeout self) (objects self) (next_ref self)
    (say_finished_delays self).

Definition set_session_queue (v : list ref) (self : DialogueHermesMqtt) :=
  mkDialogueHermesMqtt (siteIds self) (wakeword_topics self) (session self)
    v (say_finished_event self) (say_finished_timeout self) (objects self)
    (next_ref self) (say_finished_delays self).

Definition set_say_finished_event (v : bool) (self : DialogueHermesMqtt) :=
  mkDialogueHermesMqtt (siteIds self) (wakeword_topics self) (session self)
    (session_queue self) v (say_finished_timeout self) (objects self)
    (next_ref self) (say_finished_delays self).

Definition set_say_finished_delays (v : list (option nat))
           (self : DialogueHermesMqtt) :=
  mkDialogueHermesMqtt (siteIds self) (wakeword_topics self) (session self)
    (session_queue self) (say_finished_event self)
    (say_finished_timeout self) (objects self) (next_ref self) v.

(** [o.field = v] on the object named [r]. *)
Definition update_object (r : ref) (f : SessionInfo.t -> SessionInfo.t)
           (self : DialogueHermesMqtt) :=
  mkDialogueHermesMqtt (siteIds self) (wakeword_topics self) (session self)
    (session_queue self) (say_finished_event self)
    (say_finished_timeout self)
    (fun r' => if Nat.eqb r' r then f (objects self r') else objects self r')
    (next_ref self) (say_finished_delays self).

(** Allocation of a fresh object. *)
Definition alloc_object (o : SessionInfo.t) (self : DialogueHermesMqtt)
  : ref * DialogueHermesMqtt :=
  (next_ref self,
   mkDialogueHermesMqtt (siteIds self) (wakeword_topics self) (session self)
     (session_queue self) (say_finished_event self)
     (say_finished_timeout self)
     (fun r' => if Nat.eqb r' (next_ref self) then o else objects self r')
     (S (next_ref self)) (say_finished_delays self)).

(** [DialogueHermesMqtt.__init__]; the store is empty (every index holds
    a placeholder until allocated). *)
Definition placeholder : SessionInfo.t :=
  SessionInfo.new EmptyString EmptyString
    (DialogueStartSession.mk (DialogueNotification EmptyString)
       EmptyString EmptyString).

Definition init (siteIds wakewordIds : option (list string))
           (delays : list (option nat)) : DialogueHermesMqtt :=
  mkDialogueHermesMqtt
    (match siteIds with Some l => l | None => [] end)
    (map (fun w => (HotwordDetected.topic w, w))
         (match wakewordIds with Some l => l | None => [] end))
    None [] false 10 (fun _ => placeholder) 0 delays.


(** ** Generators as state-passing computations *)

Inductive Exn : Type :=
| AssertionError
| TimeoutError
| TypeError.

(** How a body finishes.  [OutOfFuel] is an artefact of the recursion
    bound of [start_session_fuel]/[end_session_fuel]; no [except] clause
    catches it, and [start_session_returns] shows the handlers never
    produce it. *)
Inductive Outcome (A : Type) : Type :=
| Return (a : A)
| Raised (e : Exn)
| OutOfFuel.
Arguments Return {A} a.
Arguments Raised {A} e.
Arguments OutOfFuel {A}.

Definition Gen (A : Type) : Type :=
  DialogueHermesMqtt -> list Message * DialogueHermesMqtt * Outcome A.

Definition ret {A} (a : A) : Gen A := fun self => ([], self, Return a).

Definition bind {A B} (m : Gen A) (k : A -> Gen B) : Gen B :=
  fun self =>
    match m self with
    | (out1, self1, Return a) =>
        match k a self1 with
        | (out2, self2, r) => (out1 ++ out2, self2, r)
        end
    | (out1, self1, Raised e) => (out1, self1, Raised e)
    | (out1, self1, OutOfFuel) => (out1, self1, OutOfFuel)
    end.

Notation "x <- m ;; k" := (bind m (fun x => k))
  (at level 61, m at next level, right associativity).
Notation "m ;; k" := (bind m (fun _ => k))
  (at level 61, right associativity).

Definition yield (m : Message) : Gen unit := fun self => ([m], self, Return tt).
Definition get_self : Gen DialogueHermesMqtt := fun self => ([], self, Return self).
Definition modify (f : DialogueHermesMqtt -> DialogueHermesMqtt) : Gen unit :=
  fun self => ([], f self, Return tt).
Definition raise {A} (e : Exn) : Gen A := fun self => ([], self, Raised e).
Definition out_of_fuel {A} : Gen A := fun self => ([], self, OutOfFuel).

(** [assert self.session]: the active session, or [AssertionError]. *)
Definition assert_session : Gen ref :=
  self <- get_self ;;
  match session self with
  | Some s => ret s
  | None => raise AssertionError
  end.

(** [try: body  except Exception: _LOGGER.exception(..)] *)
Definition try_except_Exception (body : Gen unit) : Gen unit :=
  fun self =>
    match body self with
    | (out, self', Raised _) => (out, self', Return tt)
    | r => r
    end.

(** [try: body  except asyncio.TimeoutError: _LOGGER.exception(..)] *)
Definition try_except_TimeoutError (body : Gen unit) : Gen unit :=
  fun self =>
    match body self with
    | (out, self', Raised TimeoutError) => (out, self', Return tt)
    | r => r
    end.

(** Truth value of a [str]. *)
Definition truthy (s : string) : bool :=
  match s with EmptyString => false | _ => true end.

(** [await asyncio.wait_for(self.say_finished_event.wait(), timeout)]:
    returns once the event is set, raises [TimeoutError] when that does not
    happen within [timeout] seconds. *)
Definition wait_for_say_finished (timeout : nat) : Gen unit :=
  self <- get_self ;;
  if say_finished_event self then ret tt
  else
    match say_finished_delays self with
    | Some d :: rest =>
        modify (set_say_finished_delays rest) ;;
        if Nat.ltb d timeout
        then modify (set_say_finished_event true)
        else raise TimeoutError
    | None :: rest =>
        modify (set_say_finished_delays rest) ;; raise TimeoutError
    | [] => raise TimeoutError
    end.

(** ** The state machine *)

Definition say_and_wait (text : string) (siteId : string) : Gen unit :=
  s <- assert_session ;;
  modify (set_say_finished_event false) ;;
  (* Forward to TTS *)
  self <- get_self ;;
  yield (TtsSay siteId (SessionInfo.sessionId (objects self s)) text) ;;
  (* Wait for finished response (with timeout) *)
  self <- get_self ;;
  try_except_TimeoutError (wait_for_say_finished (say_finished_timeout self)).

Fixpoint start_session_fuel (fuel : nat) (new_session : ref)
         (siteId : string) {struct fuel} : Gen unit :=
  match fuel with
  | O => out_of_fuel
  | S fuel' =>
      self <- get_self ;;
      let start_session := SessionInfo.start_session (objects self new_session) in
      match DialogueStartSession.init start_session with
      | DialogueNotification text =>
          (* Notification session *)
          (match session self with
           | None => modify (set_session (Some new_session))
           | Some _ => ret tt
           end) ;;
          (if truthy text then say_and_wait text siteId else ret tt) ;;
          (* End notification session immedately *)
          end_session_fuel fuel' NOMINAL siteId
      | DialogueAction canBeEnqueued text intentFilter sendIntentNotRecognized =>
          (* Action session *)
          modify (update_object new_session
                    (SessionInfo.set_customData
                       (DialogueStartSession.customData start_session))) ;;
          modify (update_object new_session
                    (SessionInfo.set_intentFilter intentFilter)) ;;
          modify (update_object new_session
                    (SessionInfo.set_sendIntentNotRecognized
                       sendIntentNotRecognized)) ;;
          self <- get_self ;;
          match session self with
          | Some _ =>
              (* Existing session *)
              if canBeEnqueued then
                (* Queue session for later *)
                modify (fun self =>
                          set_session_queue
                            (session_queue self ++ [new_session]) self) ;;
                yield (DialogueSessionQueued
                         (SessionInfo.sessionId (objects self new_session))
                         siteId
                         (SessionInfo.customData (objects self new_session)))
              else
                (* Drop session *)
                ret tt
          | None =>
              (* Start new session *)
              modify (set_session (Some new_session)) ;;
              (if truthy text then say_and_wait text siteId else ret tt) ;;
              (* Start ASR listening *)
              yield (AsrStartListening siteId
                       (SessionInfo.sessionId (objects self new_session)))
          end
      end ;;
      modify (set_session (Some new_session)) ;;
      self <- get_self ;;
      yield (DialogueSessionStarted siteId
               (SessionInfo.sessionId (objects self new_session))
               (SessionInfo.customData (objects self new_session)))
  end

with end_session_fuel (fuel : nat)
       (reason : DialogueSessionTerminationReason) (siteId : string)
       {struct fuel} : Gen unit :=
  match fuel with
  | O => out_of_fuel
  | S fuel' =>
      s <- assert_session ;;
      self <- get_self ;;
      yield (DialogueSessionEnded
               (SessionInfo.sessionId (objects self s)) siteId
               (SessionInfo.customData (objects self s)) reason) ;;
      modify (set_session None) ;;
      (* Check session queue *)
      self <- get_self ;;
      match session_queue self with
      | [] => ret tt
      | queued :: rest =>
          modify (set_session_queue rest) ;;
          start_session_fuel fuel' queued "default"
      end
  end.

(** The recursion [start_session] -> [end_session] -> [start_session]
    takes one session off the queue each round, and a session promoted
    from the queue finds no active session, so it is not queued again:
    two levels per queued session and two more are enough. *)
Definition enough_fuel (self : DialogueHermesMqtt) : nat :=
  2 * length (session_queue self) + 2.

Definition start_session (new_session : ref) (siteId : string) : Gen unit :=
  fun self => start_session_fuel (enough_fuel self) new_session siteId self.

Definition end_session (reason : DialogueSessionTerminationReason)
           (siteId : string) : Gen unit :=
  fun self => end_session_fuel (enough_fuel self) reason siteId self.

(** [handle_start]; [uuid] is the value of [str(uuid4())]. *)
Definition handle_start (uuid : string)
           (start_session_msg : DialogueStartSession.t) : Gen unit :=
  try_except_Exception (
    let sessionId := uuid in
    self <- get_self ;;
    let (new_session, self') :=
      alloc_object
        (SessionInfo.new sessionId
           (DialogueStartSession.siteId start_session_msg)
           start_session_msg) self in
    modify (fun _ => self') ;;
    start_session new_session (DialogueStartSession.siteId start_session_msg)).

Definition handle_continue (continue_session : DialogueContinueSession.t)
  : Gen unit :=
  try_except_Exception (
    s <- assert_session ;;
    (* Update fields *)
    self <- get_self ;;
    modify (update_object s
              (SessionInfo.set_customData
                 (if truthy (DialogueContinueSession.customData continue_session)
                  then DialogueContinueSession.customData continue_session
                  else SessionInfo.customData (objects self s)))) ;;
    self <- get_self ;;
    (match SessionInfo.intentFilter (objects self s) with
     | Some _ =>
         (* Overwrite intent filter *)
         modify (update_object s
                   (SessionInfo.set_intentFilter
                      (DialogueContinueSession.intentFilter continue_session)))
     | None => ret tt
     end) ;;
    modify (update_object s
              (SessionInfo.set_sendIntentNotRecognized
                 (DialogueContinueSession.sendIntentNotRecognized
                    continue_session))) ;;
    self <- get_self ;;
    (if truthy (DialogueContinueSession.text continue_session)
     then say_and_wait (DialogueContinueSession.text continue_session)
                       (SessionInfo.siteId (objects self s))
     else ret tt) ;;
    (* Start ASR listening *)
    self <- get_self ;;
    yield (AsrStartListening (SessionInfo.siteId (objects self s))
                             (SessionInfo.sessionId (objects self s)))).

Definition handle_end (end_session_msg : DialogueEndSession.t) : Gen unit :=
  try_except_Exception (
    s <- assert_session ;;
    self <- get_self ;;
    end_session NOMINAL (SessionInfo.siteId (objects self s))).

Definition handle_text_captured (text_captured : AsrTextCaptured.t)
  : Gen unit :=
  try_except_Exception (
    s <- assert_session ;;
    self <- get_self ;;
    (* Stop listening *)
    yield (AsrStopListening (AsrTextCaptured.siteId text_captured)
                            (SessionInfo.sessionId (objects self s))) ;;
    (* Perform query *)
    yield (NluQuery (AsrTextCaptured.text text_captured)
                    (SessionInfo.intentFilter (objects self s))
                    (SessionInfo.sessionId (objects self s)))).

Definition handle_recognized (recognition : NluIntent.t) : Gen unit :=
  try_except_Exception (
    _ <- assert_session ;;
    ret tt).

Definition handle_not_recognized (not_recognized : NluIntentNotRecognized.t)
  : Gen unit :=
  try_except_Exception (
    s <- assert_session ;;
    self <- get_self ;;
    (if SessionInfo.sendIntentNotRecognized (objects self s) then
       (* Client will handle *)
       yield (DialogueIntentNotRecognized
                (SessionInfo.sessionId (objects self s))
                (SessionInfo.customData (objects self s))
                (NluIntentNotRecognized.siteId not_recognized)
                (NluIntentNotRecognized.input not_recognized))
     else ret tt) ;;
    (* End session *)
    end_session INTENT_NOT_RECOGNIZED
                (NluIntentNotRecognized.siteId not_recognized)).

(** [handle_wake]; [uuid] is the value of [uuid4()] in the f-string. *)
Definition handle_wake (uuid : string) (wakeword_id : string)
           (detected : HotwordDetected.t) : Gen unit :=
  try_except_Exception (
    let sessionId :=
      (HotwordDetected.siteId detected ++ "-" ++ wakeword_id ++ "-" ++ uuid)%string in
    self <- get_self ;;
    let (new_session, self') :=
      alloc_object
        (SessionInfo.new sessionId (HotwordDetected.siteId detected)
           (DialogueStartSession.mk
              (DialogueAction false EmptyString None false)
              (HotwordDetected.siteId detected)
              wakeword_id)) self in
    modify (fun _ => self') ;;
    self <- get_self ;;
    match session self with
    | Some _ =>
        (* Jump the queue *)
        modify (fun self =>
                  set_session_queue (new_session :: session_queue self) self) ;;
        (* Abort previous session *)
        end_session ABORTED_BY_USER (HotwordDetected.siteId detected)
    | None =>
        (* Start new session *)
        start_session new_session "default"
    end).

(** ** Dispatch *)

(** The keys [on_message] reads from the decoded JSON payload. *)
Record Json : Type := mkJson {
  json_siteId : option string;
  json_sessionId : option string
}.

Definition get_default (v : option string) (default : string) : string :=
  match v with Some x => x | None => default end.

Definition _check_siteId (self : DialogueHermesMqtt) (json_payload : Json)
  : bool :=
  match siteIds self with
  | _ :: _ =>
      existsb (String.eqb (get_default (json_siteId json_payload) "default"))
              (siteIds self)
  | [] =>
      (* All sites *)
      true
  end.

(** True if payload sessionId matches current sessionId. *)
Definition _check_sessionId (self : DialogueHermesMqtt) (json_payload : Json)
  : bool :=
  match session self with
  | Some s =>
      String.eqb (get_default (json_sessionId json_payload) EmptyString)
                 (SessionInfo.sessionId (objects self s))
  | None =>
      (* No current session *)
      false
  end.

(** A message received from the broker: the branch of [on_message] its
    topic selects, the JSON payload and the object built from it.  A topic
    that is none of the fixed ones is looked up in [wakeword_topics]. *)
Inductive MqttMessage : Type :=
| OnStartSession (json_payload : Json) (m : DialogueStartSession.t)
| OnContinueSession (json_payload : Json) (m : DialogueContinueSession.t)
| OnEndSession (json_payload : Json) (m : DialogueEndSession.t)
| OnSayFinished (json_payload : Json)
| OnTextCaptured (json_payload : Json) (m : AsrTextCaptured.t)
| OnIntent (json_payload : Json) (m : NluIntent.t)
| OnIntentNotRecognized (json_payload : Json) (m : NluIntentNotRecognized.t)
| OnOtherTopic (topic : string) (json_payload : Json) (m : HotwordDetected.t).

Fixpoint dict_get (d : list (string * string)) (k : string) : option string :=
  match d with
  | [] => None
  | (k', v) :: d' => if String.eqb k k' then Some v else dict_get d' k
  end.

(** What [run_coroutine_threadsafe] is given.  [handle_start],
    [handle_continue], [handle_end], [handle_not_recognized] and
    [handle_wake] are [async def]s with [yield]: a call builds an async
    generator object and runs nothing of the body; the body runs when the
    object is iterated.  [handle_text_captured], a [def] with [yield],
    builds a generator object in the same way.  [handle_recognized] is a
    plain function. *)
Inductive Awaitable : Type :=
| Coroutine (body : Gen unit)
| AsyncGenerator (body : Gen unit).

(** [asyncio.run_coroutine_threadsafe(coro, loop)]: "A coroutine object is
    required"; given an async generator it raises [TypeError] and
    schedules nothing.  A coroutine is run on the loop, its messages being
    the result. *)
Definition run_coroutine_threadsafe (coro : Awaitable) : Gen unit :=
  match coro with
  | Coroutine body => body
  | AsyncGenerator _ => raise TypeError
  end.

(** [publish_all_async]: the messages of [future.result()] are the ones
    published. *)
Definition publish_all_async (coro : Awaitable) : Gen unit :=
  run_coroutine_threadsafe coro.

(** [on_message]: the filter of each branch, then what the branch does
    with the handler.  The messages yielded are the ones published; [uuid]
    is the next value of [uuid4()]. *)
Definition on_message (uuid : string) (msg : MqttMessage) : Gen unit :=
  try_except_Exception (
    self <- get_self ;;
    match msg with
    | OnStartSession json_payload m =>
        if negb (_check_siteId self json_payload) then ret tt
        else
          (* Run in event loop (for TTS) *)
          run_coroutine_threadsafe (AsyncGenerator (handle_start uuid m))
    | OnContinueSession json_payload m =>
        if negb (_check_siteId self json_payload) then ret tt
        else
          (* Run in event loop (for TTS) *)
          run_coroutine_threadsafe (AsyncGenerator (handle_continue m))
    | OnEndSession json_payload m =>
        if negb (_check_siteId self json_payload) then ret tt
        else
          (* Run outside event loop: the generator object is dropped *)
          let _ := handle_end m in ret tt
    | OnSayFinished json_payload =>
        if negb (_check_sessionId self json_payload) then ret tt
        else
          (* Signal event loop *)
          modify (set_say_finished_event true)
    | OnTextCaptured json_payload m =>
        if negb (_check_sessionId self json_payload) then ret tt
        else
          (* Run outside event loop: the generator object is dropped *)
          let _ := handle_text_captured m in ret tt
    | OnIntent json_payload m =>
        if negb (_check_sessionId self json_payload) then ret tt
        else handle_recognized m
    | OnIntentNotRecognized json_payload m =>
        if negb (_check_sessionId self json_payload) then ret tt
        else
          (* Run in event loop (for TTS) *)
          run_coroutine_threadsafe (AsyncGenerator (handle_not_recognized m))
    | OnOtherTopic topic json_payload m =>
        match dict_get (wakeword_topics self) topic with
        | Some wakeword_id =>
            if negb (_check_siteId self json_payload) then ret tt
            else
              publish_all_async
                (AsyncGenerator (handle_wake uuid wakeword_id m))
        | None => ret tt
        end
    end).

(** ** Vocabulary of the statements *)

(** The state [say_and_wait] leaves: the event is cleared, then set again
    when the acknowledgement comes before the timeout; one delay of the
    environment is used up. *)
Definition after_say (self : DialogueHermesMqtt) : DialogueHermesMqtt :=
  set_say_finished_delays (tl (say_finished_delays self))
    (set_say_finished_event
       (match say_finished_delays self with
        | Some d :: _ => Nat.ltb d (say_finished_timeout self)
        | _ => false
        end) self).

(** Messages yielded before the rest of a run. *)
Definition prepend {A} (out1 : list Message)
           (r : list Message * DialogueHermesMqtt * Outcome A)
  : list Message * DialogueHermesMqtt * Outcome A :=
  match r with (out2, self2, o) => (out1 ++ out2, self2, o) end.

(** Running a computation: the yielded messages and the final state. *)
Definition emitted {A} (r : list Message * DialogueHermesMqtt * Outcome A)
  : list Message := fst (fst r).
Definition final {A} (r : list Message * DialogueHermesMqtt * Outcome A)
  : DialogueHermesMqtt := snd (fst r).
Definition outcome {A} (r : list Message * DialogueHermesMqtt * Outcome A)
  : Outcome A := snd r.

(** The fields [handle_continue] writes on the active session. *)
Definition continued (m : DialogueContinueSession.t) (o : SessionInfo.t)
  : SessionInfo.t :=
  SessionInfo.mk (SessionInfo.sessionId o) (SessionInfo.siteId o)
    (SessionInfo.start_session o)
    (if truthy (DialogueContinueSession.customData m)
     then DialogueContinueSession.customData m
     else SessionInfo.customData o)
    (match SessionInfo.intentFilter o with
     | Some _ => DialogueContinueSession.intentFilter m
     | None => None
     end)
    (DialogueContinueSession.sendIntentNotRecognized m)
    (SessionInfo.continue_session o).

(** The announcement that closes [start_session]. *)
Definition started (new_session : ref) (siteId : string)
           (self : DialogueHermesMqtt) : Message :=
  DialogueSessionStarted siteId
    (SessionInfo.sessionId (objects self new_session))
    (SessionInfo.customData (objects self new_session)).

(** The fields [start_session] writes on an action session. *)
Definition configured (new_session : ref) (customData : string)
           (intentFilter : option (list string))
           (sendIntentNotRecognized : bool) (self : DialogueHermesMqtt)
  : DialogueHermesMqtt :=
  update_object new_session
    (SessionInfo.set_sendIntentNotRecognized sendIntentNotRecognized)
    (update_object new_session (SessionInfo.set_intentFilter intentFilter)
       (update_object new_session (SessionInfo.set_customData customData)
          self)).

(** Of the termination reasons only [NOMINAL] is reported. *)
Definition ended_nominal (m : Message) : Prop :=
  match m with
  | DialogueSessionEnded _ _ _ reason => reason = NOMINAL
  | _ => True
  end.

(** The session object [handle_wake] creates. *)
Definition wake_session (uuid wakeword_id : string)
           (detected : HotwordDetected.t) : SessionInfo.t :=
  SessionInfo.new
    (HotwordDetected.siteId detected ++ "-" ++ wakeword_id ++ "-" ++ uuid)%string
    (HotwordDetected.siteId detected)
    (DialogueStartSession.mk (DialogueAction false EmptyString None false)
       (HotwordDetected.siteId detected) wakeword_id).

(** ** Sequences of operations *)

Inductive Operation : Type :=
| StartSession (uuid : string) (m : DialogueStartSession.t)
| ContinueSession (m : DialogueContinueSession.t)
| EndSession (m : DialogueEndSession.t)
| HandleWakeword (uuid wakeword_id : string) (detected : HotwordDetected.t).

Definition perform (op : Operation) : Gen unit :=
  match op with
  | StartSession uuid m => handle_start uuid m
  | ContinueSession m => handle_continue m
  | EndSession m => handle_end m
  | HandleWakeword uuid wakeword_id detected =>
      handle_wake uuid wakeword_id detected
  end.

(** The state after a sequence of operations, each run to completion. *)
Fixpoint after (ops : list Operation) (self : DialogueHermesMqtt)
  : DialogueHermesMqtt :=
  match ops with
  | [] => self
  | op :: rest => after rest (final (perform op self))
  end.

Definition reachable (self : DialogueHermesMqtt) : Prop :=
  exists siteIds wakewordIds delays ops,
    self = after ops (init siteIds wakewordIds delays).

(** No queued session is the active one. *)
Definition queue_excludes_active (self : DialogueHermesMqtt) : Prop :=
  forall s, session self = Some s -> ~ In s (session_queue self).

(** Every queued session is an allocated object made from an action. *)
Definition is_action (i : DialogueInit) : bool :=
  match i with DialogueAction _ _ _ _ => true | DialogueNotification _ => false end.

Definition queue_of_actions (self : DialogueHermesMqtt) : Prop :=
  Forall (fun q =>
            q < next_ref self /\
            is_action (DialogueStartSession.init
                         (SessionInfo.start_session (objects self q))) = true)
         (session_queue self).

Definition is_StartListening (m : Message) : bool :=
  match m with AsrStartListening _ _ => true | _ => false end.

Definition is_SessionEnded (m : Message) : bool :=
  match m with DialogueSessionEnded _ _ _ _ => true | _ => false end.

Definition count (p : Message -> bool) (out : list Message) : nat :=
  length (filter p out).

(** ** Events that do not belong to the active session *)



(** ** Runs without acknowledgement *)

(** The manager with the event cleared and a text-to-speech service that
    never acknowledges: every wait times out. *)
Definition unacknowledged (self : DialogueHermesMqtt) : DialogueHermesMqtt :=
  set_say_finished_delays [] (set_say_finished_event false self).

Definition on_final {A} (f : DialogueHermesMqtt -> DialogueHermesMqtt)
           (r : list Message * DialogueHermesMqtt * Outcome A)
  : list Message * DialogueHermesMqtt * Outcome A :=
  match r with (out, self, o) => (out, f self, o) end.

(** Two states with the same session store. *)
Definition same_store (a b : DialogueHermesMqtt) : Prop :=
  session a = session b /\
  session_queue a = session_queue b /\
  objects a = objects b.

(** ** The wait that times out *)

(** No acknowledgement of the next sentence comes before the timeout: it
    never comes, or not within [say_finished_timeout] seconds. *)
Definition times_out (self : DialogueHermesMqtt) : Prop :=
  match say_finished_delays self with
  | Some d :: _ => say_finished_timeout self <= d
  | _ => True
  end.

(** ** Invariants of the session store *)

(** The fields of a session no handler writes: its id, its site, the
    request it was made from and [continue_session]. *)
Definition same_identity (a b : SessionInfo.t) : Prop :=
  SessionInfo.sessionId a = SessionInfo.sessionId b /\
  SessionInfo.siteId a = SessionInfo.siteId b /\
  SessionInfo.start_session a = SessionInfo.start_session b /\
  SessionInfo.continue_session a = SessionInfo.continue_session b.

(** Every object allocated in [self] is still allocated in [self'] and has
    kept its identity. *)
Definition keeps_identities (self self' : DialogueHermesMqtt) : Prop :=
  next_ref self <= next_ref self' /\
  forall q, q < next_ref self ->
            same_identity (objects self q) (objects self' q).

Definition can_be_enqueued (i : DialogueInit) : bool :=
  match i with
  | DialogueAction canBeEnqueued _ _ _ => canBeEnqueued
  | DialogueNotification _ => false
  end.

(** Every queued session is an allocated object made from an action that
    can be enqueued. *)
Definition queue_of_enqueued (self : DialogueHermesMqtt) : Prop :=
  Forall (fun q =>
            q < next_ref self /\
            can_be_enqueued (DialogueStartSession.init
                               (SessionInfo.start_session (objects self q)))
            = true)
         (session_queue self).

(** The payload of a message [on_message] filters by site: the session
    requests and the wake word. *)
Definition site_filtered (msg : MqttMessage) : option Json :=
  match msg with
  | OnStartSession json_payload _
  | OnContinueSession json_payload _
  | OnEndSession json_payload _
  | OnOtherTopic _ json_payload _ => Some json_payload
  | OnSayFinished _
  | OnTextCaptured _ _
  | OnIntent _ _
  | OnIntentNotRecognized _ _ => None
  end.

(** ** Sample configurations *)

(** A manager for all sites listening for one wake word; no
    acknowledgement ever arrives from the text-to-speech service. *)
Definition idle : DialogueHermesMqtt := init None (Some ["porcupine"]) [].

Definition lights_action : DialogueStartSession.t :=
  DialogueStartSession.mk
    (DialogueAction true "which room" (Some ["lights"]) true)
    "kitchen" "lights".

Definition timer_action : DialogueStartSession.t :=
  DialogueStartSession.mk
    (DialogueAction true "how long" (Some ["timer"]) false)
    "kitchen" "timer".

Definition urgent_action : DialogueStartSession.t :=
  DialogueStartSession.mk
    (DialogueAction false EmptyString None false) "kitchen" "urgent".

Definition notice : DialogueStartSession.t :=
  DialogueStartSession.mk (DialogueNotification "dinner is ready")
    "kitchen" "notice".

Definition wake_kitchen : HotwordDetected.t :=
  HotwordDetected.mk "porcupine.ppn" "kitchen".



(** ** Equations of the generator monad *)

Lemma prepend_nil {A} (r : list Message * DialogueHermesMqtt * Outcome A) :
  prepend [] r = r.
Proof. destruct r as [[? ?] ?]. reflexivity. Qed.

Lemma prepend_prepend {A} o1 o2
      (r : list Message * DialogueHermesMqtt * Outcome A) :
  prepend o1 (prepend o2 r) = prepend (o1 ++ o2) r.
Proof. destruct r as [[? ?] ?]. cbn. rewrite app_assoc. reflexivity. Qed.

Lemma bind_ret {A B} (a : A) (k : A -> Gen B) self :
  bind (ret a) k self = k a self.
Proof. unfold bind, ret. destruct (k a self) as [[? ?] ?]. reflexivity. Qed.

Lemma bind_get_self {B} (k : DialogueHermesMqtt -> Gen B) self :
  bind get_self k self = k self self.
Proof. unfold bind, get_self. destruct (k self self) as [[? ?] ?]. reflexivity. Qed.

Lemma bind_modify {B} f (k : unit -> Gen B) self :
  bind (modify f) k self = k tt (f self).
Proof. unfold bind, modify. destruct (k tt (f self)) as [[? ?] ?]. reflexivity. Qed.

Lemma bind_yield {B} m (k : unit -> Gen B) self :
  bind (yield m) k self = prepend [m] (k tt self).
Proof. reflexivity. Qed.

Lemma bind_raise {A B} e (k : A -> Gen B) self :
  bind (raise e) k self = ([], self, Raised e).
Proof. reflexivity. Qed.

Lemma bind_out_of_fuel {A B} (k : A -> Gen B) self :
  bind out_of_fuel k self = ([], self, OutOfFuel).
Proof. reflexivity. Qed.

Lemma bind_returns {A B} (m : Gen A) (k : A -> Gen B) self out1 self1 a :
  m self = (out1, self1, Return a) ->
  bind m k self = prepend out1 (k a self1).
Proof. intros H. unfold bind. rewrite H. reflexivity. Qed.

Lemma bind_assoc {A B C} (m : Gen A) (k : A -> Gen B) (h : B -> Gen C) self :
  bind (bind m k) h self = bind m (fun a => bind (k a) h) self.
Proof.
  unfold bind. destruct (m self) as [[o1 s1] [a| |]]; try reflexivity.
  destruct (k a s1) as [[o2 s2] [b| |]]; try reflexivity.
  destruct (h b s2) as [[o3 s3] r]. rewrite app_assoc. reflexivity.
Qed.

Lemma assert_session_some self s :
  session self = Some s -> assert_session self = ([], self, Return s).
Proof. intros H. unfold assert_session. rewrite bind_get_self, H. reflexivity. Qed.

Lemma assert_session_none self :
  session self = None ->
  assert_session self = ([], self, Raised AssertionError).
Proof. intros H. unfold assert_session. rewrite bind_get_self, H. reflexivity. Qed.

Ltac gen_step :=
  repeat first
    [ rewrite bind_get_self | rewrite bind_modify | rewrite bind_yield
    | rewrite bind_ret | rewrite bind_raise | rewrite bind_out_of_fuel
    | rewrite bind_assoc | rewrite prepend_nil | rewrite prepend_prepend
    | progress cbn beta iota ].

Ltac with_session H :=
  rewrite (bind_returns _ _ _ _ _ _ (assert_session_some _ _ H)).

(** ** [say_and_wait] *)

(** With an active session [say_and_wait] yields the [TtsSay] and returns,
    whether the acknowledgement comes or the wait times out. *)
Lemma say_and_wait_eq text siteId self s :
  session self = Some s ->
  say_and_wait text siteId self =
  ([TtsSay siteId (SessionInfo.sessionId (objects self s)) text],
   after_say self, Return tt).
Proof.
  intros Hs. unfold say_and_wait. with_session Hs.
  rewrite bind_modify, bind_get_self, bind_yield, bind_get_self.
  unfold try_except_TimeoutError, wait_for_say_finished, after_say.
  rewrite bind_get_self.
  destruct self as [a b c q e t o n ds]. cbn -[Nat.ltb].
  destruct ds as [|[dl|] rest]; unfold bind, modify, raise, ret;
    cbn -[Nat.ltb]; try reflexivity.
  destruct (Nat.ltb dl t); reflexivity.
Qed.

(** ** [handle_continue] *)

Lemma handle_continue_eq m self s :
  session self = Some s ->
  exists self',
    handle_continue m self =
    ((if truthy (DialogueContinueSession.text m)
      then [TtsSay (SessionInfo.siteId (objects self s))
                   (SessionInfo.sessionId (objects self s))
                   (DialogueContinueSession.text m)]
      else []) ++
     [AsrStartListening (SessionInfo.siteId (objects self s))
                        (SessionInfo.sessionId (objects self s))],
     self', Return tt) /\
    session self' = Some s /\
    session_queue self' = session_queue self /\
    objects self' s = continued m (objects self s) /\
    (forall r, r <> s -> objects self' r = objects self r) /\
    next_ref self' = next_ref self.
Proof.
  intros Hs. unfold handle_continue, try_except_Exception.
  with_session Hs. gen_step.
  cbn [objects update_object]. rewrite Nat.eqb_refl.
  destruct (SessionInfo.intentFilter _) eqn:Hf; cbn in Hf; gen_step.
  all: destruct (truthy (DialogueContinueSession.text m)).
  all: try (erewrite bind_returns by (apply say_and_wait_eq; cbn; exact Hs)).
  all: gen_step; cbn; rewrite ?Nat.eqb_refl; cbn.
  all: eexists; split; [reflexivity|]; cbn; rewrite ?Nat.eqb_refl.
  all: unfold continued, SessionInfo.set_sendIntentNotRecognized,
         SessionInfo.set_intentFilter, SessionInfo.set_customData;
       cbn; rewrite ?Hf.
  all: split; [assumption|]; split; [reflexivity|]; split; [reflexivity|].
  all: split; [|reflexivity].
  all: intros r Hr; apply Nat.eqb_neq in Hr; rewrite Hr; reflexivity.
Qed.

(** C6. Continuing the active session: when its intent filter is set, the
    filter afterwards is the request's filter as given, [None] included;
    when it is [None] it stays [None].  The session stays the active
    one. *)
Theorem handle_continue_intentFilter m self s :
  session self = Some s ->
  let self' := final (handle_continue m self) in
  session self' = Some s /\
  (SessionInfo.intentFilter (objects self s) <> None ->
   SessionInfo.intentFilter (objects self' s) =
   DialogueContinueSession.intentFilter m) /\
  (SessionInfo.intentFilter (objects self s) = None ->
   SessionInfo.intentFilter (objects self' s) = None).
Proof.
  intros Hs.
  destruct (handle_continue_eq m self s Hs) as (self1 & Heq & Hs1 & _ & Ho & _).
  rewrite Heq. cbn. split; [exact Hs1|]. rewrite Ho. unfold continued. cbn.
  split; intros Hf.
  - destruct (SessionInfo.intentFilter (objects self s)); congruence.
  - rewrite Hf. reflexivity.
Qed.

Lemma handle_continue_intentFilter_witness :
  let self := final (handle_start "u1" lights_action idle) in
  let m := DialogueContinueSession.mk "u1" EmptyString "and now" None false in
  session self = Some 0 /\
  SessionInfo.intentFilter (objects self 0) = Some ["lights"] /\
  SessionInfo.intentFilter
    (objects (final (handle_continue m self)) 0) = None.
Proof.
  intros self m. split; [reflexivity|]. split; [reflexivity|].
  destruct (handle_continue_intentFilter m self 0 eq_refl) as (_ & H & _).
  apply H. intros H0. vm_compute in H0. discriminate.
Defined.

(** C7. Continuing the active session: a request without custom data (the
    empty string, the default of the field) leaves the session's custom
    data as it was, a request with custom data overwrites it. *)
Theorem handle_continue_customData m self s :
  session self = Some s ->
  let self' := final (handle_continue m self) in
  (DialogueContinueSession.customData m = EmptyString ->
   SessionInfo.customData (objects self' s) =
   SessionInfo.customData (objects self s)) /\
  (DialogueContinueSession.customData m <> EmptyString ->
   SessionInfo.customData (objects self' s) =
   DialogueContinueSession.customData m).
Proof.
  intros Hs.
  destruct (handle_continue_eq m self s Hs) as (self1 & Heq & _ & _ & Ho & _).
  rewrite Heq. cbn. rewrite Ho. unfold continued. cbn.
  split; intros Hc.
  - rewrite Hc. reflexivity.
  - destruct (DialogueContinueSession.customData m); [congruence | reflexivity].
Qed.

Lemma handle_continue_customData_witness :
  let self := final (handle_start "u1" lights_action idle) in
  let keep := DialogueContinueSession.mk "u1" EmptyString "and now" None false in
  let change := DialogueContinueSession.mk "u1" "hall" "and now" None false in
  session self = Some 0 /\
  SessionInfo.customData (objects (final (handle_continue keep self)) 0)
  = "lights" /\
  SessionInfo.customData (objects (final (handle_continue change self)) 0)
  = "hall".
Proof.
  intros self keep change. split; [reflexivity|]. split.
  - destruct (handle_continue_customData keep self 0 eq_refl) as (H & _).
    apply H. reflexivity.
  - destruct (handle_continue_customData change self 0 eq_refl) as (_ & H).
    apply H. discriminate.
Defined.

(** ** One step of [start_session] and [end_session] *)

Lemma end_session_fuel_active f reason siteId self s :
  session self = Some s ->
  end_session_fuel (S f) reason siteId self =
  prepend
    [DialogueSessionEnded (SessionInfo.sessionId (objects self s)) siteId
       (SessionInfo.customData (objects self s)) reason]
    (match session_queue self with
     | [] => ([], set_session None self, Return tt)
     | queued :: rest =>
         start_session_fuel f queued "default"
           (set_session_queue rest (set_session None self))
     end).
Proof.
  intros Hs. cbn [end_session_fuel]. with_session Hs. gen_step.
  cbn [session_queue set_session].
  destruct (session_queue self) as [|queued rest]; gen_step; reflexivity.
Qed.

Lemma end_session_fuel_idle f reason siteId self :
  session self = None ->
  end_session_fuel (S f) reason siteId self = ([], self, Raised AssertionError).
Proof.
  intros Hs. cbn [end_session_fuel]. unfold bind.
  rewrite (assert_session_none _ Hs). reflexivity.
Qed.

Lemma start_session_fuel_notification f new_session siteId self text :
  DialogueStartSession.init (SessionInfo.start_session (objects self new_session))
  = DialogueNotification text ->
  start_session_fuel (S f) new_session siteId self =
  let self1 := match session self with
               | None => set_session (Some new_session) self
               | Some _ => self
               end in
  let speaker := match session self with Some s => s | None => new_session end in
  prepend
    (if truthy text
     then [TtsSay siteId (SessionInfo.sessionId (objects self speaker)) text]
     else [])
    (match end_session_fuel f NOMINAL siteId
             (if truthy text then after_say self1 else self1) with
     | (out, self2, Return _) =>
         (out ++ [started new_session siteId self2],
          set_session (Some new_session) self2, Return tt)
     | r => r
     end).
Proof.
  intros Hi. cbn [start_session_fuel]. gen_step. rewrite Hi. gen_step.
  destruct (session self) as [s|] eqn:Hs; gen_step;
    (destruct (truthy text);
     [ erewrite bind_returns by (apply say_and_wait_eq; cbn; first [exact Hs | reflexivity]) | ];
     gen_step; unfold bind at 1;
     match goal with
     | |- context [end_session_fuel f NOMINAL siteId ?st] =>
         destruct (end_session_fuel f NOMINAL siteId st) as [[out self2] [[]| |]]
     end; gen_step; cbn; rewrite ?app_nil_r; reflexivity).
Qed.

(** The three assignments [start_session] makes on an action session. *)
Lemma configured_sessionId new_session cd filt sinr self r :
  SessionInfo.sessionId (objects (configured new_session cd filt sinr self) r)
  = SessionInfo.sessionId (objects self r).
Proof.
  unfold configured. cbn. destruct (Nat.eqb r new_session); reflexivity.
Qed.

Lemma configured_customData new_session cd filt sinr self :
  SessionInfo.customData
    (objects (configured new_session cd filt sinr self) new_session) = cd.
Proof. unfold configured. cbn. rewrite Nat.eqb_refl. reflexivity. Qed.

Lemma start_session_fuel_action f new_session siteId self cbe text filt sinr :
  DialogueStartSession.init (SessionInfo.start_session (objects self new_session))
  = DialogueAction cbe text filt sinr ->
  let cd := DialogueStartSession.customData
              (SessionInfo.start_session (objects self new_session)) in
  let sid := SessionInfo.sessionId (objects self new_session) in
  let self1 := configured new_session cd filt sinr self in
  start_session_fuel (S f) new_session siteId self =
  match session self with
  | Some _ =>
      if cbe then
        ([DialogueSessionQueued sid siteId cd;
          DialogueSessionStarted siteId sid cd],
         set_session (Some new_session)
           (set_session_queue (session_queue self ++ [new_session]) self1),
         Return tt)
      else
        ([DialogueSessionStarted siteId sid cd],
         set_session (Some new_session) self1, Return tt)
  | None =>
      ((if truthy text then [TtsSay siteId sid text] else []) ++
       [AsrStartListening siteId sid; DialogueSessionStarted siteId sid cd],
       set_session (Some new_session)
         (if truthy text
          then after_say (set_session (Some new_session) self1)
          else set_session (Some new_session) self1),
       Return tt)
  end.
Proof.
  intros Hi cd sid self1. cbn [start_session_fuel]. gen_step. rewrite Hi.
  gen_step. fold cd. fold (configured new_session cd filt sinr self).
  fold self1. cbn [session configured update_object].
  assert (Hsid : SessionInfo.sessionId (objects self1 new_session) = sid)
    by apply configured_sessionId.
  assert (Hcd : SessionInfo.customData (objects self1 new_session) = cd)
    by apply configured_customData.
  change (session self1) with (session self).
  destruct (session self) as [s|] eqn:Hs.
  - destruct cbe; gen_step; cbn [objects set_session set_session_queue];
      rewrite ?Hsid, ?Hcd; reflexivity.
  - gen_step. destruct (truthy text).
    + erewrite bind_returns by (apply say_and_wait_eq; reflexivity).
      gen_step. cbn [objects set_session after_say set_say_finished_delays
                     set_say_finished_event].
      rewrite ?Hsid, ?Hcd. reflexivity.
    + gen_step. cbn [objects set_session]. rewrite ?Hsid, ?Hcd. reflexivity.
Qed.

(** ** Termination and shape of the runs *)

Lemma Forall_ended_nominal_say (b : bool) m :
  ended_nominal m -> Forall ended_nominal (if b then [m] else []).
Proof. destruct b; auto. Qed.

(** With two levels of recursion per queued session and two more (one more
    for [end_session]) the run returns -- it neither exhausts the bound nor
    raises --, [start_session] leaves its session active, and the only
    termination reason reported after the first [DialogueSessionEnded] of
    [end_session] is [NOMINAL]. *)
Lemma session_fuel_returns fuel :
  (forall new_session siteId self,
      2 * length (session_queue self) + 2 <= fuel ->
      exists out self',
        start_session_fuel fuel new_session siteId self
        = (out ++ [started new_session siteId self'], self', Return tt) /\
        session self' = Some new_session /\
        Forall ended_nominal out /\
        (forall r, SessionInfo.sessionId (objects self' r)
                   = SessionInfo.sessionId (objects self r))) /\
  (forall reason siteId self s,
      session self = Some s ->
      2 * length (session_queue self) + 1 <= fuel ->
      exists out self',
        end_session_fuel fuel reason siteId self
        = (DialogueSessionEnded (SessionInfo.sessionId (objects self s))
             siteId (SessionInfo.customData (objects self s)) reason :: out,
           self', Return tt) /\
        Forall ended_nominal out /\
        (forall r, SessionInfo.sessionId (objects self' r)
                   = SessionInfo.sessionId (objects self r))).
Proof.
  induction fuel as [|f [IHstart IHend]].
  { split; intros; lia. }
  split.
  - intros new_session siteId self Hfuel.
    destruct (DialogueStartSession.init
                (SessionInfo.start_session (objects self new_session)))
      as [text | cbe text filt sinr] eqn:Hi.
    + rewrite (start_session_fuel_notification _ _ _ _ _ Hi). cbn zeta.
      set (speaker := match session self with
                      | Some s => s | None => new_session end).
      set (self1 := match session self with
                    | None => set_session (Some new_session) self
                    | Some _ => self end).
      set (st := if truthy text then after_say self1 else self1).
      assert (Hst : session st = Some speaker /\
                    session_queue st = session_queue self /\
                    objects st = objects self).
      { unfold st, self1, speaker.
        destruct (session self) eqn:Hs, (truthy text); cbn; auto. }
      destruct Hst as (Hss & Hsq & Hso).
      destruct (IHend NOMINAL siteId st speaker Hss) as (out & self2 & Heq & Hn & Hid).
      { rewrite Hsq. lia. }
      rewrite Heq. cbn.
      eexists (_ ++ _ :: out), (set_session (Some new_session) self2). split.
      { rewrite <- app_assoc. cbn. reflexivity. }
      split; [reflexivity|]. split.
      * apply Forall_app. split.
        -- apply Forall_ended_nominal_say. exact I.
        -- constructor; [reflexivity | exact Hn].
      * intros r. cbn. rewrite Hid, Hso. reflexivity.
    + rewrite (start_session_fuel_action _ _ _ _ _ _ _ _ Hi). cbn zeta.
      set (cd := DialogueStartSession.customData
                   (SessionInfo.start_session (objects self new_session))).
      set (self1 := configured new_session cd filt sinr self).
      assert (Hsid : forall r, SessionInfo.sessionId (objects self1 r)
                               = SessionInfo.sessionId (objects self r))
        by (intros r; apply configured_sessionId).
      assert (Hcd : SessionInfo.customData (objects self1 new_session) = cd)
        by apply configured_customData.
      destruct (session self) as [s|] eqn:Hs; [destruct cbe|].
      * exists [DialogueSessionQueued
                  (SessionInfo.sessionId (objects self new_session)) siteId cd],
               (set_session (Some new_session)
                  (set_session_queue (session_queue self ++ [new_session])
                     self1)).
        split.
        { unfold started. cbn [objects set_session set_session_queue app].
          rewrite Hsid, Hcd. reflexivity. }
        split; [reflexivity|]. split; [repeat constructor | exact Hsid].
      * exists [], (set_session (Some new_session) self1).
        split.
        { unfold started. cbn [objects set_session app].
          rewrite Hsid, Hcd. reflexivity. }
        split; [reflexivity|]. split; [constructor | exact Hsid].
      * exists ((if truthy text
                 then [TtsSay siteId
                         (SessionInfo.sessionId (objects self new_session))
                         text]
                 else []) ++
                [AsrStartListening siteId
                   (SessionInfo.sessionId (objects self new_session))]),
               (set_session (Some new_session)
                  (if truthy text
                   then after_say (set_session (Some new_session) self1)
                   else set_session (Some new_session) self1)).
        split.
        { rewrite <- app_assoc. cbn [app]. unfold started.
          destruct (truthy text);
            cbn [objects set_session after_say set_say_finished_delays
                 set_say_finished_event];
            rewrite Hsid, Hcd; reflexivity. }
        split; [reflexivity|]. split.
        -- apply Forall_app. split.
           ++ apply Forall_ended_nominal_say. exact I.
           ++ repeat constructor.
        -- intros r. destruct (truthy text); cbn; apply Hsid.
  - intros reason siteId self s Hs Hfuel.
    rewrite (end_session_fuel_active _ _ _ _ _ Hs).
    destruct (session_queue self) as [|queued rest] eqn:Hq.
    + cbn. eexists [], _. split; [reflexivity|]. split; [constructor|].
      intros r. reflexivity.
    + cbn [length] in Hfuel.
      destruct (IHstart queued "default"
                  (set_session_queue rest (set_session None self)))
        as (out & self' & Heq & _ & Hn & Hid).
      { cbn. lia. }
      rewrite Heq. cbn. eexists _, _. split; [reflexivity|]. split.
      * apply Forall_app. split; [exact Hn|]. repeat constructor.
      * intros r. rewrite Hid. reflexivity.
Qed.

Lemma start_session_returns new_session siteId self :
  exists out self',
    start_session new_session siteId self
    = (out ++ [started new_session siteId self'], self', Return tt) /\
    session self' = Some new_session /\
    Forall ended_nominal out /\
    (forall r, SessionInfo.sessionId (objects self' r)
               = SessionInfo.sessionId (objects self r)).
Proof.
  unfold start_session.
  apply (proj1 (session_fuel_returns (enough_fuel self))).
  unfold enough_fuel. lia.
Qed.

Lemma end_session_returns reason siteId self s :
  session self = Some s ->
  exists out self',
    end_session reason siteId self
    = (DialogueSessionEnded (SessionInfo.sessionId (objects self s)) siteId
         (SessionInfo.customData (objects self s)) reason :: out,
       self', Return tt) /\
    Forall ended_nominal out /\
    (forall r, SessionInfo.sessionId (objects self' r)
               = SessionInfo.sessionId (objects self r)).
Proof.
  intros Hs. unfold end_session.
  apply (proj2 (session_fuel_returns (enough_fuel self))); [exact Hs|].
  unfold enough_fuel. lia.
Qed.

Lemma try_except_Exception_returns body self out self' :
  body self = (out, self', Return tt) ->
  try_except_Exception body self = (out, self', Return tt).
Proof. intros H. unfold try_except_Exception. rewrite H. reflexivity. Qed.

(** ** The recursion bound does not matter *)

Lemma outcome_prepend {A} out (r : list Message * DialogueHermesMqtt * Outcome A) :
  outcome (prepend out r) = outcome r.
Proof. destruct r as [[? ?] ?]. reflexivity. Qed.

(** A run that does not exhaust its bound is the run of every larger
    bound. *)
Lemma session_fuel_mono fuel :
  (forall new_session siteId self fuel',
      fuel <= fuel' ->
      outcome (start_session_fuel fuel new_session siteId self) <> OutOfFuel ->
      start_session_fuel fuel' new_session siteId self
      = start_session_fuel fuel new_session siteId self) /\
  (forall reason siteId self fuel',
      fuel <= fuel' ->
      outcome (end_session_fuel fuel reason siteId self) <> OutOfFuel ->
      end_session_fuel fuel' reason siteId self
      = end_session_fuel fuel reason siteId self).
Proof.
  induction fuel as [|f [IHstart IHend]].
  { split; intros; cbn in *; congruence. }
  split.
  - intros new_session siteId self [|f'] Hle Hout; [lia|].
    apply le_S_n in Hle.
    destruct (DialogueStartSession.init
                (SessionInfo.start_session (objects self new_session)))
      as [text | cbe text filt sinr] eqn:Hi.
    + rewrite (start_session_fuel_notification f' _ _ _ _ Hi).
      rewrite (start_session_fuel_notification f _ _ _ _ Hi) in Hout |- *.
      cbn zeta in *. rewrite outcome_prepend in Hout.
      match goal with
      | |- context [end_session_fuel f NOMINAL siteId ?st] =>
          rewrite (IHend NOMINAL siteId st f' Hle); [reflexivity|];
          destruct (end_session_fuel f NOMINAL siteId st)
            as [[out self2] [[]| |]]; cbn in *; congruence
      end.
    + rewrite (start_session_fuel_action f' _ _ _ _ _ _ _ Hi).
      rewrite (start_session_fuel_action f _ _ _ _ _ _ _ Hi). reflexivity.
  - intros reason siteId self [|f'] Hle Hout; [lia|].
    apply le_S_n in Hle.
    destruct (session self) as [s|] eqn:Hs.
    + rewrite (end_session_fuel_active f' _ _ _ _ Hs).
      rewrite (end_session_fuel_active f _ _ _ _ Hs) in Hout |- *.
      rewrite outcome_prepend in Hout.
      destruct (session_queue self) as [|queued rest]; [reflexivity|].
      rewrite (IHstart _ _ _ f' Hle Hout). reflexivity.
    + rewrite (end_session_fuel_idle f' _ _ _ Hs).
      rewrite (end_session_fuel_idle f _ _ _ Hs). reflexivity.
Qed.

(** [start_session] and [end_session] are the runs of every bound that is
    large enough. *)
Lemma start_session_fuel_enough fuel new_session siteId self :
  enough_fuel self <= fuel ->
  start_session_fuel fuel new_session siteId self
  = start_session new_session siteId self.
Proof.
  intros Hle. unfold start_session.
  apply (proj1 (session_fuel_mono _)); [exact Hle|].
  destruct (start_session_returns new_session siteId self)
    as (out & self' & Heq & _).
  unfold start_session in Heq. rewrite Heq. discriminate.
Qed.

Lemma end_session_fuel_enough fuel reason siteId self :
  enough_fuel self <= fuel ->
  end_session_fuel fuel reason siteId self = end_session reason siteId self.
Proof.
  intros Hle. unfold end_session.
  destruct (session self) as [s|] eqn:Hs.
  - apply (proj2 (session_fuel_mono _)); [exact Hle|].
    destruct (end_session_returns reason siteId self s Hs)
      as (out & self' & Heq & _).
    unfold end_session in Heq. rewrite Heq. discriminate.
  - unfold enough_fuel in *.
    destruct fuel as [|f]; [lia|].
    replace (2 * length (session_queue self) + 2)
      with (S (2 * length (session_queue self) + 1)) by lia.
    rewrite !(end_session_fuel_idle _ _ _ _ Hs). reflexivity.
Qed.

(** ** The handlers in terms of [start_session] and [end_session] *)

(** The session object [handle_start] creates. *)
Lemma handle_start_eq uuid m self :
  handle_start uuid m self =
  start_session (next_ref self) (DialogueStartSession.siteId m)
    (snd (alloc_object
            (SessionInfo.new uuid (DialogueStartSession.siteId m) m) self)).
Proof.
  destruct (start_session_returns (next_ref self) (DialogueStartSession.siteId m)
              (snd (alloc_object
                      (SessionInfo.new uuid (DialogueStartSession.siteId m) m)
                      self)))
    as (out & self' & Heq & _).
  rewrite Heq. apply try_except_Exception_returns.
  gen_step. unfold alloc_object in *. gen_step. cbn [snd] in Heq. exact Heq.
Qed.

Lemma handle_end_eq m self s :
  session self = Some s ->
  handle_end m self
  = end_session NOMINAL (SessionInfo.siteId (objects self s)) self.
Proof.
  intros Hs.
  destruct (end_session_returns NOMINAL (SessionInfo.siteId (objects self s))
              self s Hs) as (out & self' & Heq & _).
  rewrite Heq. apply try_except_Exception_returns.
  with_session Hs. gen_step. exact Heq.
Qed.

Lemma handle_end_idle m self :
  session self = None -> handle_end m self = ([], self, Return tt).
Proof.
  intros Hs. unfold handle_end, try_except_Exception, bind.
  rewrite (assert_session_none _ Hs). reflexivity.
Qed.

Lemma handle_continue_idle m self :
  session self = None -> handle_continue m self = ([], self, Return tt).
Proof.
  intros Hs. unfold handle_continue, try_except_Exception, bind.
  rewrite (assert_session_none _ Hs). reflexivity.
Qed.

Lemma handle_wake_eq uuid wakeword_id detected self :
  let self0 := snd (alloc_object (wake_session uuid wakeword_id detected) self) in
  handle_wake uuid wakeword_id detected self =
  match session self with
  | Some _ =>
      end_session ABORTED_BY_USER (HotwordDetected.siteId detected)
        (set_session_queue (next_ref self :: session_queue self) self0)
  | None => start_session (next_ref self) "default" self0
  end.
Proof.
  destruct self as [a b [s|] q e t o n ds]; cbn zeta; cbn [session].
  - match goal with
    | |- _ = end_session ?r ?site ?st =>
        destruct (end_session_returns r site st s eq_refl)
          as (out & self' & Heq & _)
    end.
    rewrite Heq. apply try_except_Exception_returns.
    gen_step. unfold alloc_object. gen_step. cbn [session]. gen_step.
    exact Heq.
  - match goal with
    | |- _ = start_session ?r ?site ?st =>
        destruct (start_session_returns r site st)
          as (out & self' & Heq & _)
    end.
    rewrite Heq. apply try_except_Exception_returns.
    gen_step. unfold alloc_object. gen_step. cbn [session]. gen_step.
    exact Heq.
Qed.

(** ** Which session is active after [start_session] *)

(** Whatever the request -- an action that starts, is queued or is dropped,
    or a notification -- [handle_start] returns with the new session as the
    active one and [DialogueSessionStarted] as its last message: the
    assignment and the [yield] that close [start_session] follow the
    [if]/[else] and are not part of a branch. *)
Lemma handle_start_activates uuid m self :
  exists out cd self',
    handle_start uuid m self
    = (out ++ [DialogueSessionStarted (DialogueStartSession.siteId m) uuid cd],
       self', Return tt) /\
    session self' = Some (next_ref self).
Proof.
  rewrite handle_start_eq.
  destruct (start_session_returns (next_ref self) (DialogueStartSession.siteId m)
              (snd (alloc_object
                      (SessionInfo.new uuid (DialogueStartSession.siteId m) m)
                      self)))
    as (out & self' & Heq & Hs & _ & Hid).
  exists out, (SessionInfo.customData (objects self' (next_ref self))), self'.
  split; [|exact Hs]. rewrite Heq. unfold started. rewrite Hid. cbn.
  rewrite Nat.eqb_refl. reflexivity.
Qed.

(** C1 (the code breaks it). After an action is queued behind the active
    session, the queued session is also the active one. *)
Theorem queued_session_is_active :
  let self := after [StartSession "u1" lights_action;
                     StartSession "u2" timer_action] idle in
  reachable self /\
  session self = Some 1 /\
  session_queue self = [1] /\
  ~ queue_excludes_active self.
Proof.
  intros self. split; [|split; [|split]].
  - exists None, (Some ["porcupine"]), [], 
      [StartSession "u1" lights_action; StartSession "u2" timer_action].
    reflexivity.
  - reflexivity.
  - reflexivity.
  - intros H. apply (H 1); [reflexivity | left; reflexivity].
Qed.

(** C2 (the code breaks it). An action that cannot be queued, started
    while another session is active, is announced with
    [DialogueSessionStarted] and replaces the active session. *)
Theorem dropped_session_is_started :
  let self := after [StartSession "u1" lights_action] idle in
  let r := handle_start "u2" urgent_action self in
  session self = Some 0 /\
  DialogueStartSession.init urgent_action
  = DialogueAction false EmptyString None false /\
  emitted r = [DialogueSessionStarted "kitchen" "u2" "urgent"] /\
  session (final r) = Some 1 /\
  SessionInfo.sessionId (objects (final r) 1) = "u2" /\
  session_queue (final r) = [].
Proof. repeat split; reflexivity. Qed.

(** C3 (the code breaks it). After the messages of a notification are
    drained its session is the active one: it is announced as started after
    it was announced as ended. *)
Theorem notification_session_stays_active :
  let r := handle_start "u1" notice idle in
  emitted r
  = [TtsSay "kitchen" "u1" "dinner is ready";
     DialogueSessionEnded "u1" "kitchen" EmptyString NOMINAL;
     DialogueSessionStarted "kitchen" "u1" EmptyString] /\
  session (final r) = Some 0 /\
  SessionInfo.sessionId (objects (final r) 0) = "u1" /\
  session_queue (final r) = [].
Proof. repeat split; reflexivity. Qed.

(** C5 (the code breaks it). A session that is active and, through the
    queueing of C1, also queued is aborted by the wake word, and is the
    active session again once the wake-word session ends. *)
Theorem aborted_session_is_active_again :
  let self := after [StartSession "u1" lights_action;
                     StartSession "u2" timer_action] idle in
  let woken := handle_wake "u3" "porcupine" wake_kitchen self in
  let ended := handle_end (DialogueEndSession.mk "kitchen-porcupine-u3"
                             EmptyString) (final woken) in
  session self = Some 1 /\
  SessionInfo.start_session (objects self 1) = timer_action /\
  emitted woken
  = [DialogueSessionEnded "u2" "kitchen" "timer" ABORTED_BY_USER;
     AsrStartListening "default" "kitchen-porcupine-u3";
     DialogueSessionStarted "default" "kitchen-porcupine-u3" "porcupine"] /\
  session (final woken) = Some 2 /\
  session (final ended) = Some 1.
Proof. repeat split; reflexivity. Qed.

Lemma handle_end_returns m self :
  exists out self', handle_end m self = (out, self', Return tt).
Proof.
  destruct (session self) as [s|] eqn:Hs.
  - rewrite (handle_end_eq _ _ _ Hs).
    destruct (end_session_returns NOMINAL (SessionInfo.siteId (objects self s))
                self s Hs) as (out & self' & Heq & _).
    eauto.
  - rewrite (handle_end_idle _ _ Hs). eauto.
Qed.

(** ** What the handlers do with an event *)

Lemma handle_not_recognized_idle m self :
  session self = None -> handle_not_recognized m self = ([], self, Return tt).
Proof.
  intros Hs. unfold handle_not_recognized, try_except_Exception, bind.
  rewrite (assert_session_none _ Hs). reflexivity.
Qed.

Lemma handle_text_captured_idle m self :
  session self = None -> handle_text_captured m self = ([], self, Return tt).
Proof.
  intros Hs. unfold handle_text_captured, try_except_Exception, bind.
  rewrite (assert_session_none _ Hs). reflexivity.
Qed.

Lemma handle_recognized_eq m self : handle_recognized m self = ([], self, Return tt).
Proof.
  unfold handle_recognized, try_except_Exception, bind.
  destruct (session self) as [s|] eqn:Hs.
  - rewrite (assert_session_some _ _ Hs). reflexivity.
  - rewrite (assert_session_none _ Hs). reflexivity.
Qed.

Lemma handle_text_captured_eq m self s :
  session self = Some s ->
  handle_text_captured m self =
  ([AsrStopListening (AsrTextCaptured.siteId m)
      (SessionInfo.sessionId (objects self s));
    NluQuery (AsrTextCaptured.text m)
      (SessionInfo.intentFilter (objects self s))
      (SessionInfo.sessionId (objects self s))],
   self, Return tt).
Proof.
  intros Hs. apply try_except_Exception_returns. with_session Hs.
  gen_step. reflexivity.
Qed.

(** ** What [on_message] does *)

(** None of the generators [on_message] builds is ever iterated:
    [run_coroutine_threadsafe] raises [TypeError] on an async generator,
    caught by the [except] clause of [on_message], and the generators of
    [handle_end] and [handle_text_captured] are dropped.  What is left is
    the event a matching speech-finished message sets. *)
Lemma on_message_eq uuid msg self :
  on_message uuid msg self =
  match msg with
  | OnSayFinished json_payload =>
      if _check_sessionId self json_payload
      then ([], set_say_finished_event true self, Return tt)
      else ([], self, Return tt)
  | _ => ([], self, Return tt)
  end.
Proof.
  unfold on_message, try_except_Exception. rewrite bind_get_self.
  destruct msg as [j m | j m | j m | j | j m | j m | j m | topic j m].
  - destruct (_check_siteId self j); reflexivity.
  - destruct (_check_siteId self j); reflexivity.
  - destruct (_check_siteId self j); reflexivity.
  - destruct (_check_sessionId self j); reflexivity.
  - destruct (_check_sessionId self j); reflexivity.
  - destruct (_check_sessionId self j); cbn [negb];
      [rewrite handle_recognized_eq|]; reflexivity.
  - destruct (_check_sessionId self j); reflexivity.
  - destruct (dict_get (wakeword_topics self) topic);
      [destruct (_check_siteId self j)|]; reflexivity.
Qed.

(** C10. An end-session request that finds an active session reports
    [NOMINAL] and nothing else: the first message is the
    [DialogueSessionEnded] of the active session with reason [NOMINAL],
    every [DialogueSessionEnded] of the run has that reason, and the run
    does not depend on the request; so it is for the request received
    through [on_message], whatever its payload. *)
Theorem handle_end_reason_nominal m self s :
  session self = Some s ->
  let r := handle_end m self in
  outcome r = Return tt /\
  (exists out,
      emitted r
      = DialogueSessionEnded (SessionInfo.sessionId (objects self s))
          (SessionInfo.siteId (objects self s))
          (SessionInfo.customData (objects self s)) NOMINAL :: out) /\
  Forall ended_nominal (emitted r) /\
  (forall m', handle_end m' self = r) /\
  (forall uuid json_payload m',
      Forall ended_nominal
        (emitted (on_message uuid (OnEndSession json_payload m') self))).
Proof.
  intros Hs r.
  assert (H : forall m', handle_end m' self = r).
  { intros m'. unfold r. rewrite !(handle_end_eq _ _ _ Hs). reflexivity. }
  assert (Hr : exists out self',
             r = (DialogueSessionEnded (SessionInfo.sessionId (objects self s))
                    (SessionInfo.siteId (objects self s))
                    (SessionInfo.customData (objects self s)) NOMINAL :: out,
                  self', Return tt) /\
             Forall ended_nominal out).
  { unfold r. rewrite (handle_end_eq _ _ _ Hs).
    destruct (end_session_returns NOMINAL
                (SessionInfo.siteId (objects self s)) self s Hs)
      as (out & self' & Heq & Hn & _).
    eauto. }
  destruct Hr as (out & self' & Heq & Hn).
  assert (Hall : Forall ended_nominal (emitted r)).
  { rewrite Heq. constructor; [reflexivity | exact Hn]. }
  split; [rewrite Heq; reflexivity|]. split; [rewrite Heq; cbn; eauto|].
  split; [exact Hall|]. split; [exact H|].
  intros uuid json_payload m'. rewrite on_message_eq. constructor.
Qed.

Lemma handle_end_reason_nominal_witness :
  let self := after [StartSession "u1" lights_action] idle in
  let m := DialogueEndSession.mk "someone else" "ABORTED_BY_USER" in
  session self = Some 0 /\
  outcome (handle_end m self) = Return tt /\
  Forall ended_nominal (emitted (handle_end m self)).
Proof.
  intros self m. split; [reflexivity|].
  destruct (handle_end_reason_nominal m self 0 eq_refl) as (H1 & _ & H2 & _).
  split; [exact H1 | exact H2].
Defined.

(** ** Dispatch *)





(** ** Notifications *)

(** A notification started with an empty queue: the text, the end of the
    session that spoke it, the announcement. *)
Lemma start_notification_empty_queue f new_session siteId self text :
  DialogueStartSession.init (SessionInfo.start_session (objects self new_session))
  = DialogueNotification text ->
  session_queue self = [] ->
  exists sid cd sid' cd',
    emitted (start_session_fuel (S (S f)) new_session siteId self)
    = (if truthy text then [TtsSay siteId sid text] else []) ++
      [DialogueSessionEnded sid siteId cd NOMINAL;
       DialogueSessionStarted siteId sid' cd'].
Proof.
  intros Hi Hq.
  rewrite (start_session_fuel_notification _ _ _ _ _ Hi). cbn zeta.
  set (speaker := match session self with
                  | Some s => s | None => new_session end).
  set (self1 := match session self with
                | None => set_session (Some new_session) self
                | Some _ => self end).
  set (st := if truthy text then after_say self1 else self1).
  assert (Hst : session st = Some speaker /\
                session_queue st = [] /\ objects st = objects self).
  { unfold st, self1, speaker. rewrite <- Hq.
    destruct (session self) eqn:Hs, (truthy text); cbn; auto. }
  destruct Hst as (Hss & Hsq & Hso).
  rewrite (end_session_fuel_active _ _ _ _ _ Hss), Hsq, Hso. cbn.
  do 4 eexists. reflexivity.
Qed.

(** A notification started before a queued action: the end of the speaking
    session promotes the action, which starts listening. *)
Lemma start_notification_action_head f new_session siteId self text
      queued rest cbe text' filt sinr :
  DialogueStartSession.init (SessionInfo.start_session (objects self new_session))
  = DialogueNotification text ->
  session_queue self = queued :: rest ->
  DialogueStartSession.init (SessionInfo.start_session (objects self queued))
  = DialogueAction cbe text' filt sinr ->
  exists sid cd sidq cdq sid' cd',
    emitted (start_session_fuel (S (S (S (S f)))) new_session siteId self)
    = (if truthy text then [TtsSay siteId sid text] else []) ++
      [DialogueSessionEnded sid siteId cd NOMINAL] ++
      (if truthy text' then [TtsSay "default" sidq text'] else []) ++
      [AsrStartListening "default" sidq;
       DialogueSessionStarted "default" sidq cdq;
       DialogueSessionStarted siteId sid' cd'].
Proof.
  intros Hi Hq Hiq.
  rewrite (start_session_fuel_notification _ _ _ _ _ Hi). cbn zeta.
  set (speaker := match session self with
                  | Some s => s | None => new_session end).
  set (self1 := match session self with
                | None => set_session (Some new_session) self
                | Some _ => self end).
  set (st := if truthy text then after_say self1 else self1).
  assert (Hst : session st = Some speaker /\
                session_queue st = queued :: rest /\
                objects st = objects self).
  { unfold st, self1, speaker. rewrite <- Hq.
    destruct (session self) eqn:Hs, (truthy text); cbn; auto. }
  destruct Hst as (Hss & Hsq & Hso).
  rewrite (end_session_fuel_active _ _ _ _ _ Hss), Hsq.
  erewrite start_session_fuel_action
    by (cbn [objects set_session_queue set_session]; rewrite Hso; exact Hiq).
  cbn. rewrite Hso. do 6 eexists. rewrite <- app_assoc. reflexivity.
Qed.

Lemma handle_start_ended_nominal uuid m self :
  Forall ended_nominal (emitted (handle_start uuid m self)).
Proof.
  rewrite handle_start_eq.
  destruct (start_session_returns (next_ref self) (DialogueStartSession.siteId m)
              (snd (alloc_object
                      (SessionInfo.new uuid (DialogueStartSession.siteId m) m)
                      self)))
    as (out & self' & Heq & _ & Hn & _).
  rewrite Heq. cbn. apply Forall_app. split; [exact Hn|].
  repeat constructor.
Qed.

(** C4 (amended). Starting a notification emits exactly one
    [DialogueSessionEnded], with reason [NOMINAL], when the queued sessions
    are actions (the only sessions the code queues); it emits no
    [AsrStartListening] when the queue is empty.  With a queued action, the
    action promoted at the end of the notification starts listening in the
    same sequence. *)
Theorem notification_start_emits uuid m text self :
  DialogueStartSession.init m = DialogueNotification text ->
  queue_of_actions self ->
  let out := emitted (handle_start uuid m self) in
  count is_SessionEnded out = 1 /\
  Forall ended_nominal out /\
  (session_queue self = [] -> count is_StartListening out = 0).
Proof.
  intros Hi Hq out. split; [|split; [apply handle_start_ended_nominal|]].
  - unfold out. rewrite handle_start_eq. unfold start_session, enough_fuel.
    set (site := DialogueStartSession.siteId m).
    set (self0 := snd (alloc_object (SessionInfo.new uuid site m) self)).
    assert (Hnew : DialogueStartSession.init
                     (SessionInfo.start_session (objects self0 (next_ref self)))
                   = DialogueNotification text).
    { cbn. rewrite Nat.eqb_refl. exact Hi. }
    change (session_queue self0) with (session_queue self).
    destruct (session_queue self) as [|queued rest] eqn:Hsq.
    + destruct (start_notification_empty_queue 0 _ site _ _ Hnew Hsq)
        as (sid & cd & sid' & cd' & Heq).
      cbn [length Nat.mul Nat.add]. rewrite Heq.
      destruct (truthy text); reflexivity.
    + unfold queue_of_actions in Hq. rewrite Hsq in Hq.
      inversion Hq as [|q l [Hlt Hact] _]; subst.
      destruct (DialogueStartSession.init
                  (SessionInfo.start_session (objects self queued)))
        as [|cbe text' filt sinr] eqn:Hiq; [discriminate|].
      assert (Hiq0 : DialogueStartSession.init
                       (SessionInfo.start_session (objects self0 queued))
                     = DialogueAction cbe text' filt sinr).
      { cbn. replace (Nat.eqb queued (next_ref self)) with false; [exact Hiq|].
        symmetry. apply Nat.eqb_neq. lia. }
      replace (2 * length (queued :: rest) + 2)
        with (S (S (S (S (2 * length rest))))) by (cbn [length]; lia).
      destruct (start_notification_action_head (2 * length rest) _ site _ _
                  _ _ _ _ _ _ Hnew Hsq Hiq0)
        as (sid & cd & sidq & cdq & sid' & cd' & Heq).
      rewrite Heq. destruct (truthy text), (truthy text'); reflexivity.
  - intros Hsq. unfold out. rewrite handle_start_eq.
    unfold start_session, enough_fuel.
    set (site := DialogueStartSession.siteId m).
    set (self0 := snd (alloc_object (SessionInfo.new uuid site m) self)).
    assert (Hnew : DialogueStartSession.init
                     (SessionInfo.start_session (objects self0 (next_ref self)))
                   = DialogueNotification text).
    { cbn. rewrite Nat.eqb_refl. exact Hi. }
    change (session_queue self0) with (session_queue self). rewrite Hsq.
    destruct (start_notification_empty_queue 0 _ site _ _ Hnew Hsq)
      as (sid & cd & sid' & cd' & Heq).
    cbn [length Nat.mul Nat.add]. rewrite Heq.
    destruct (truthy text); reflexivity.
Qed.

Lemma notification_start_emits_witness :
  let self := after [StartSession "u1" lights_action] idle in
  let out := emitted (handle_start "u2" notice self) in
  DialogueStartSession.init notice = DialogueNotification "dinner is ready" /\
  queue_of_actions self /\
  session_queue self = [] /\
  count is_SessionEnded out = 1 /\
  Forall ended_nominal out /\
  count is_StartListening out = 0.
Proof.
  intros self out.
  assert (Hq : queue_of_actions self) by constructor.
  destruct (notification_start_emits "u2" notice "dinner is ready" self
              eq_refl Hq) as (H1 & H2 & H3).
  split; [reflexivity|]. split; [exact Hq|]. split; [reflexivity|].
  split; [exact H1|]. split; [exact H2|]. apply H3. reflexivity.
Defined.

(** C4 as stated fails: with a session in the queue, the sequence of a
    notification holds the [AsrStartListening] of the promoted session. *)
Lemma notification_start_listening_counterexample :
  let self := after [StartSession "u1" lights_action;
                     StartSession "u2" timer_action] idle in
  let out := emitted (handle_start "u3" notice self) in
  DialogueStartSession.init notice = DialogueNotification "dinner is ready" /\
  out = [TtsSay "kitchen" "u2" "dinner is ready";
         DialogueSessionEnded "u2" "kitchen" "timer" NOMINAL;
         TtsSay "default" "u2" "how long";
         AsrStartListening "default" "u2";
         DialogueSessionStarted "default" "u2" "timer";
         DialogueSessionStarted "kitchen" "u3" EmptyString] /\
  count is_StartListening out <> 0.
Proof. repeat split; try reflexivity. cbn. discriminate. Qed.

(** ** The queue holds action sessions *)

Lemma final_prepend {A} out (r : list Message * DialogueHermesMqtt * Outcome A) :
  final (prepend out r) = final r.
Proof. destruct r as [[? ?] ?]. reflexivity. Qed.

Lemma queue_of_actions_ext self self' :
  next_ref self' = next_ref self ->
  session_queue self' = session_queue self ->
  (forall r, SessionInfo.start_session (objects self' r)
             = SessionInfo.start_session (objects self r)) ->
  queue_of_actions self -> queue_of_actions self'.
Proof.
  unfold queue_of_actions. intros Hn Hq Ho H. rewrite Hn, Hq.
  eapply Forall_impl; [|exact H]. cbn. intros q [Hlt Ha].
  rewrite Ho. auto.
Qed.

Lemma configured_start_session new_session cd filt sinr self r :
  SessionInfo.start_session
    (objects (configured new_session cd filt sinr self) r)
  = SessionInfo.start_session (objects self r).
Proof.
  unfold configured. cbn. destruct (Nat.eqb r new_session); reflexivity.
Qed.

Lemma queue_of_actions_tail self queued rest :
  session_queue self = queued :: rest ->
  queue_of_actions self ->
  queued < next_ref self /\
  queue_of_actions (set_session_queue rest (set_session None self)).
Proof.
  unfold queue_of_actions. intros Hq H. rewrite Hq in H.
  inversion H as [|q l [Hlt Ha] Hrest]; subst. split; [exact Hlt|].
  exact Hrest.
Qed.

(** [start_session] and [end_session] keep the queue a queue of allocated
    action sessions: the only session ever appended is one whose request
    is an action. *)
Lemma session_fuel_queue_of_actions fuel :
  (forall new_session siteId self,
      new_session < next_ref self ->
      queue_of_actions self ->
      queue_of_actions
        (final (start_session_fuel fuel new_session siteId self))) /\
  (forall reason siteId self,
      queue_of_actions self ->
      queue_of_actions (final (end_session_fuel fuel reason siteId self))).
Proof.
  induction fuel as [|f [IHstart IHend]].
  { split; intros; exact H || assumption. }
  split.
  - intros new_session siteId self Hnew Hq.
    destruct (DialogueStartSession.init
                (SessionInfo.start_session (objects self new_session)))
      as [text | cbe text filt sinr] eqn:Hi.
    + rewrite (start_session_fuel_notification _ _ _ _ _ Hi). cbn zeta.
      rewrite final_prepend.
      match goal with
      | |- context [end_session_fuel f NOMINAL siteId ?st] =>
          assert (Hst : queue_of_actions st);
          [| specialize (IHend NOMINAL siteId st Hst);
             destruct (end_session_fuel f NOMINAL siteId st)
               as [[out self2] [[]| |]]; exact IHend ]
      end.
      destruct (session self), (truthy text);
        (eapply queue_of_actions_ext; [| | |exact Hq]; reflexivity).
    + rewrite (start_session_fuel_action _ _ _ _ _ _ _ _ Hi). cbn zeta.
      set (cd := DialogueStartSession.customData
                   (SessionInfo.start_session (objects self new_session))).
      assert (H1 : queue_of_actions (configured new_session cd filt sinr self)).
      { eapply queue_of_actions_ext; [| | |exact Hq]; try reflexivity.
        intros r. apply configured_start_session. }
      destruct (session self) as [s|]; [destruct cbe|].
      * unfold queue_of_actions in *.
        cbn [final fst snd session_queue set_session set_session_queue
             next_ref objects] in *.
        apply Forall_app. split; [exact H1|]. constructor; [|constructor].
        split; [exact Hnew|]. rewrite configured_start_session, Hi.
        reflexivity.
      * exact H1.
      * destruct (truthy text); exact H1.
  - intros reason siteId self Hq.
    destruct (session self) as [s|] eqn:Hs.
    + rewrite (end_session_fuel_active _ _ _ _ _ Hs), final_prepend.
      destruct (session_queue self) as [|queued rest] eqn:Hsq.
      * eapply queue_of_actions_ext; [| | |exact Hq]; try reflexivity;
          cbn; rewrite Hsq; reflexivity.
      * destruct (queue_of_actions_tail _ _ _ Hsq Hq) as [Hlt Hrest].
        apply IHstart; [exact Hlt | exact Hrest].
    + rewrite (end_session_fuel_idle _ _ _ _ Hs). exact Hq.
Qed.

Lemma queue_of_actions_alloc o self :
  queue_of_actions self -> queue_of_actions (snd (alloc_object o self)).
Proof.
  unfold queue_of_actions. cbn. intros H.
  eapply Forall_impl; [|exact H]. cbn. intros q [Hlt Ha].
  split; [lia|]. replace (Nat.eqb q (next_ref self)) with false; [exact Ha|].
  symmetry. apply Nat.eqb_neq. lia.
Qed.

Lemma perform_queue_of_actions op self :
  queue_of_actions self -> queue_of_actions (final (perform op self)).
Proof.
  intros Hq. destruct op as [uuid m | m | m | uuid wakeword_id detected];
    cbn [perform].
  - rewrite handle_start_eq. unfold start_session.
    apply (proj1 (session_fuel_queue_of_actions _)).
    + cbn. lia.
    + apply queue_of_actions_alloc. exact Hq.
  - destruct (session self) as [s|] eqn:Hs.
    + destruct (handle_continue_eq m self s Hs)
        as (self' & Heq & _ & Hsq & Ho & Hother & Hn).
      rewrite Heq. cbn. eapply queue_of_actions_ext; [exact Hn|exact Hsq| |exact Hq].
      intros r. destruct (Nat.eq_dec r s) as [->|Hr].
      * rewrite Ho. reflexivity.
      * rewrite (Hother r Hr). reflexivity.
    + rewrite (handle_continue_idle _ _ Hs). exact Hq.
  - destruct (session self) as [s|] eqn:Hs.
    + rewrite (handle_end_eq _ _ _ Hs). unfold end_session.
      apply (proj2 (session_fuel_queue_of_actions _)). exact Hq.
    + rewrite (handle_end_idle _ _ Hs). exact Hq.
  - rewrite handle_wake_eq. cbn zeta.
    pose proof (queue_of_actions_alloc
                  (wake_session uuid wakeword_id detected) self Hq) as H0.
    destruct (session self).
    + unfold end_session.
      apply (proj2 (session_fuel_queue_of_actions _)).
      unfold queue_of_actions in *. cbn in *. constructor; [|exact H0].
      split; [lia|]. rewrite Nat.eqb_refl. reflexivity.
    + unfold start_session.
      apply (proj1 (session_fuel_queue_of_actions _)); [cbn; lia | exact H0].
Qed.

(** In every state the operations reach, the queued sessions are
    allocated action sessions. *)
Lemma reachable_queue_of_actions self :
  reachable self -> queue_of_actions self.
Proof.
  intros (siteIds & wakewordIds & delays & ops & ->).
  assert (H : queue_of_actions (init siteIds wakewordIds delays))
    by constructor.
  revert H. generalize (init siteIds wakewordIds delays).
  induction ops as [|op ops IH]; intros self H; cbn [after].
  - exact H.
  - apply IH. apply perform_queue_of_actions. exact H.
Qed.

(** ** The wait for the end of speech *)

(** Without an acknowledgement in time the wait raises [TimeoutError]
    ([say_and_wait] catches it, see [say_and_wait_eq]). *)
Lemma wait_for_say_finished_timeout self :
  say_finished_event self = false ->
  match say_finished_delays self with
  | Some d :: _ => say_finished_timeout self <= d
  | _ => True
  end ->
  outcome (wait_for_say_finished (say_finished_timeout self) self)
  = Raised TimeoutError.
Proof.
  intros He Hd. unfold wait_for_say_finished. rewrite bind_get_self, He.
  destruct (say_finished_delays self) as [|[d|] rest]; try reflexivity.
  rewrite bind_modify. cbn [say_finished_timeout set_say_finished_delays].
  apply Nat.ltb_ge in Hd. rewrite Hd. reflexivity.
Qed.

(** Runs do not depend on the acknowledgements: a run from [self] and the
    run from [unacknowledged self] yield the same messages, finish the same
    way and end in states that differ in the event and the pending
    acknowledgements only. *)
Lemma session_fuel_unacknowledged fuel :
  (forall new_session siteId self,
      start_session_fuel fuel new_session siteId (unacknowledged self)
      = on_final unacknowledged
          (start_session_fuel fuel new_session siteId self)) /\
  (forall reason siteId self,
      end_session_fuel fuel reason siteId (unacknowledged self)
      = on_final unacknowledged (end_session_fuel fuel reason siteId self)).
Proof.
  induction fuel as [|f [IHstart IHend]].
  { split; intros; reflexivity. }
  split.
  - intros new_session siteId self.
    destruct (DialogueStartSession.init
                (SessionInfo.start_session (objects self new_session)))
      as [text | cbe text filt sinr] eqn:Hi.
    + rewrite (start_session_fuel_notification f new_session siteId
                 (unacknowledged self) text Hi).
      rewrite (start_session_fuel_notification _ _ _ _ _ Hi). cbn zeta.
      cbn [session unacknowledged set_say_finished_delays
           set_say_finished_event objects].
      destruct (truthy text), (session self);
        match goal with
        | |- _ = on_final _ (prepend _
                    match end_session_fuel f NOMINAL siteId ?st0 with _ => _ end) =>
            match goal with
            | |- prepend _
                   match end_session_fuel f NOMINAL siteId ?st with _ => _ end
                 = _ =>
                change st with (unacknowledged st0)
            end;
            rewrite (IHend NOMINAL siteId st0);
            destruct (end_session_fuel f NOMINAL siteId st0)
              as [[out self2] [[]| |]]
        end; reflexivity.
    + rewrite (start_session_fuel_action f new_session siteId
                 (unacknowledged self) cbe text filt sinr Hi).
      rewrite (start_session_fuel_action _ _ _ _ _ _ _ _ Hi). cbn zeta.
      cbn [session unacknowledged set_say_finished_delays
           set_say_finished_event objects].
      destruct (session self); [destruct cbe|destruct (truthy text)];
        reflexivity.
  - intros reason siteId self.
    destruct (session self) as [s|] eqn:Hs.
    + rewrite (end_session_fuel_active f reason siteId (unacknowledged self) s Hs).
      rewrite (end_session_fuel_active _ _ _ _ _ Hs).
      cbn [session_queue unacknowledged set_say_finished_delays
           set_say_finished_event objects].
      destruct (session_queue self) as [|queued rest]; [reflexivity|].
      change (set_session_queue rest (set_session None (unacknowledged self)))
        with (unacknowledged (set_session_queue rest (set_session None self))).
      rewrite IHstart.
      destruct (start_session_fuel f queued "default"
                  (set_session_queue rest (set_session None self)))
        as [[out self2] o].
      reflexivity.
    + rewrite (end_session_fuel_idle f reason siteId (unacknowledged self) Hs).
      rewrite (end_session_fuel_idle _ _ _ _ Hs). reflexivity.
Qed.

Lemma handle_start_unacknowledged uuid m self :
  handle_start uuid m (unacknowledged self)
  = on_final unacknowledged (handle_start uuid m self).
Proof.
  rewrite !handle_start_eq. unfold start_session.
  set (o := SessionInfo.new uuid (DialogueStartSession.siteId m) m).
  exact (proj1 (session_fuel_unacknowledged
                  (enough_fuel (snd (alloc_object o self))))
           (next_ref self) (DialogueStartSession.siteId m)
           (snd (alloc_object o self))).
Qed.

Lemma handle_continue_unacknowledged m self :
  handle_continue m (unacknowledged self)
  = on_final unacknowledged (handle_continue m self).
Proof.
  destruct (session self) as [s|] eqn:Hs.
  - unfold handle_continue, try_except_Exception.
    rewrite (bind_returns _ _ (unacknowledged self) _ _ _
               (assert_session_some (unacknowledged self) s Hs)).
    with_session Hs. gen_step.
    cbn [objects update_object unacknowledged set_say_finished_delays
         set_say_finished_event].
    rewrite Nat.eqb_refl.
    destruct (SessionInfo.intentFilter _); gen_step.
    all: destruct (truthy (DialogueContinueSession.text m)).
    all: try (do 2 (erewrite bind_returns
                      by (apply say_and_wait_eq; exact Hs); gen_step)).
    all: gen_step; reflexivity.
  - rewrite (handle_continue_idle m (unacknowledged self) Hs).
    rewrite (handle_continue_idle _ _ Hs). reflexivity.
Qed.

Lemma unacknowledged_same_store a b :
  unacknowledged a = unacknowledged b -> same_store a b.
Proof.
  intros H. split; [|split].
  - exact (f_equal session H).
  - exact (f_equal session_queue H).
  - exact (f_equal objects H).
Qed.

Lemma on_final_unacknowledged_eq
      (r1 r2 : list Message * DialogueHermesMqtt * Outcome unit) :
  on_final unacknowledged r1 = on_final unacknowledged r2 ->
  emitted r1 = emitted r2 /\ outcome r1 = outcome r2 /\
  same_store (final r1) (final r2).
Proof.
  destruct r1 as [[o1 s1] x1], r2 as [[o2 s2] x2]. cbn. intros H.
  split; [exact (f_equal emitted H)|]. split; [exact (f_equal outcome H)|].
  apply unacknowledged_same_store. exact (f_equal final H).
Qed.

Lemma handle_continue_returns m self :
  outcome (handle_continue m self) = Return tt.
Proof.
  destruct (session self) as [s|] eqn:Hs.
  - destruct (handle_continue_eq m self s Hs) as (self' & Heq & _).
    rewrite Heq. reflexivity.
  - rewrite (handle_continue_idle _ _ Hs). reflexivity.
Qed.

(** A wait that times out, in a run: the text is sent, nothing
    acknowledges it, listening starts. *)
Example continue_after_timeout :
  let self := after [StartSession "u1" lights_action] idle in
  say_finished_delays self = [] /\
  emitted (handle_continue
             (DialogueContinueSession.mk "u1" EmptyString "and now" None false)
             self)
  = [TtsSay "kitchen" "u1" "and now"; AsrStartListening "kitchen" "u1"].
Proof. split; reflexivity. Qed.

(** The operations that speak do not depend on the acknowledgement of the
    speech: whatever acknowledgements arrive ([delays]) or fail to arrive
    ([delays'], for instance none at all), [handle_start] and
    [handle_continue] return without raising, yield the same messages in
    the same order and leave the same session store. *)
Lemma runs_independent_of_acknowledgement
      uuid start_m continue_m self delays delays' :
  let acknowledged := set_say_finished_delays delays self in
  let timed_out := set_say_finished_delays delays' self in
  (emitted (handle_start uuid start_m timed_out)
   = emitted (handle_start uuid start_m acknowledged) /\
   outcome (handle_start uuid start_m timed_out) = Return tt /\
   same_store (final (handle_start uuid start_m timed_out))
              (final (handle_start uuid start_m acknowledged))) /\
  (emitted (handle_continue continue_m timed_out)
   = emitted (handle_continue continue_m acknowledged) /\
   outcome (handle_continue continue_m timed_out) = Return tt /\
   same_store (final (handle_continue continue_m timed_out))
              (final (handle_continue continue_m acknowledged))).
Proof.
  intros acknowledged timed_out. split.
  - assert (H : on_final unacknowledged (handle_start uuid start_m timed_out)
                = on_final unacknowledged
                    (handle_start uuid start_m acknowledged)).
    { rewrite <- !handle_start_unacknowledged. reflexivity. }
    destruct (on_final_unacknowledged_eq _ _ H) as (He & _ & Hs).
    split; [exact He|]. split; [|exact Hs].
    destruct (handle_start_activates uuid start_m timed_out)
      as (out & cd & self' & Heq & _).
    rewrite Heq. reflexivity.
  - assert (H : on_final unacknowledged (handle_continue continue_m timed_out)
                = on_final unacknowledged
                    (handle_continue continue_m acknowledged)).
    { rewrite <- !handle_continue_unacknowledged. reflexivity. }
    destruct (on_final_unacknowledged_eq _ _ H) as (He & _ & Hs).
    split; [exact He|]. split; [|exact Hs].
    apply handle_continue_returns.
Qed.

Lemma times_out_event self :
  times_out self -> say_finished_event (after_say self) = false.
Proof.
  unfold times_out, after_say. cbn.
  destruct (say_finished_delays self) as [|[d|] rest]; try reflexivity.
  intros H. apply Nat.ltb_ge. exact H.
Qed.

Lemma handle_continue_speaks m self s :
  session self = Some s ->
  truthy (DialogueContinueSession.text m) = true ->
  emitted (handle_continue m self)
  = [TtsSay (SessionInfo.siteId (objects self s))
       (SessionInfo.sessionId (objects self s))
       (DialogueContinueSession.text m);
     AsrStartListening (SessionInfo.siteId (objects self s))
       (SessionInfo.sessionId (objects self s))] /\
  (times_out self -> say_finished_event (final (handle_continue m self)) = false).
Proof.
  intros Hs Ht. split.
  - destruct (handle_continue_eq m self s Hs) as (self' & Heq & _).
    rewrite Heq, Ht. reflexivity.
  - intros Hto. unfold handle_continue, try_except_Exception.
    with_session Hs. gen_step.
    cbn [objects update_object]. rewrite Nat.eqb_refl, Ht.
    destruct (SessionInfo.intentFilter _); gen_step.
    all: erewrite bind_returns by (apply say_and_wait_eq; cbn; exact Hs).
    all: gen_step; cbn -[Nat.ltb]; exact (times_out_event self Hto).
Qed.

Lemma handle_start_speaks uuid m self cbe text filt sinr :
  session self = None ->
  DialogueStartSession.init m = DialogueAction cbe text filt sinr ->
  truthy text = true ->
  emitted (handle_start uuid m self)
  = [TtsSay (DialogueStartSession.siteId m) uuid text;
     AsrStartListening (DialogueStartSession.siteId m) uuid;
     DialogueSessionStarted (DialogueStartSession.siteId m) uuid
       (DialogueStartSession.customData m)] /\
  (times_out self -> say_finished_event (final (handle_start uuid m self)) = false).
Proof.
  intros Hs Hi Ht. rewrite handle_start_eq. unfold start_session, enough_fuel.
  set (self0 := snd (alloc_object
                       (SessionInfo.new uuid (DialogueStartSession.siteId m) m)
                       self)).
  replace (2 * length (session_queue self0) + 2)
    with (S (2 * length (session_queue self0) + 1)) by lia.
  assert (Hi0 : DialogueStartSession.init
                  (SessionInfo.start_session (objects self0 (next_ref self)))
                = DialogueAction cbe text filt sinr).
  { cbn. rewrite Nat.eqb_refl. exact Hi. }
  rewrite (start_session_fuel_action _ _ _ _ _ _ _ _ Hi0). cbn zeta.
  change (session self0) with (session self). rewrite Hs, Ht.
  cbn [emitted final fst snd app]. split.
  - cbn. rewrite Nat.eqb_refl. reflexivity.
  - intros Hto. exact (times_out_event self Hto).
Qed.

(** C9. When no acknowledgement of the speech comes before the timeout,
    the wait of [say_and_wait] ends with [TimeoutError] after
    [say_finished_timeout] seconds, ten from [__init__]; [say_and_wait]
    catches it, having sent its [TtsSay], and leaves the event unset.  The
    operation that speaks goes on: [handle_continue] with a text yields the
    [TtsSay] and then [AsrStartListening]; [handle_start] of an action with
    a text on an idle manager yields the [TtsSay], [AsrStartListening] and
    [DialogueSessionStarted].  Both return without raising, and every
    [handle_start] and [handle_continue] yields the same messages and
    leaves the same session store as when the acknowledgements [delays]
    arrive. *)
Theorem speech_timeout_fallback uuid start_m continue_m self delays :
  times_out self ->
  let acknowledged := set_say_finished_delays delays self in
  outcome (wait_for_say_finished (say_finished_timeout self)
             (set_say_finished_event false self))
  = Raised TimeoutError /\
  (forall s text siteId,
      session self = Some s ->
      say_and_wait text siteId self
      = ([TtsSay siteId (SessionInfo.sessionId (objects self s)) text],
         after_say self, Return tt) /\
      say_finished_event (after_say self) = false) /\
  (forall s,
      session self = Some s ->
      truthy (DialogueContinueSession.text continue_m) = true ->
      let r := handle_continue continue_m self in
      let site := SessionInfo.siteId (objects self s) in
      let sid := SessionInfo.sessionId (objects self s) in
      emitted r
      = [TtsSay site sid (DialogueContinueSession.text continue_m);
         AsrStartListening site sid] /\
      say_finished_event (final r) = false) /\
  (forall cbe text filt sinr,
      session self = None ->
      DialogueStartSession.init start_m = DialogueAction cbe text filt sinr ->
      truthy text = true ->
      let r := handle_start uuid start_m self in
      let site := DialogueStartSession.siteId start_m in
      emitted r
      = [TtsSay site uuid text; AsrStartListening site uuid;
         DialogueSessionStarted site uuid
           (DialogueStartSession.customData start_m)] /\
      say_finished_event (final r) = false) /\
  (outcome (handle_continue continue_m self) = Return tt /\
   emitted (handle_continue continue_m self)
   = emitted (handle_continue continue_m acknowledged) /\
   same_store (final (handle_continue continue_m self))
              (final (handle_continue continue_m acknowledged))) /\
  (outcome (handle_start uuid start_m self) = Return tt /\
   emitted (handle_start uuid start_m self)
   = emitted (handle_start uuid start_m acknowledged) /\
   same_store (final (handle_start uuid start_m self))
              (final (handle_start uuid start_m acknowledged))) /\
  (forall siteIds wakewordIds,
      say_finished_timeout (init siteIds wakewordIds delays) = 10).
Proof.
  intros Hto acknowledged.
  assert (Hself : set_say_finished_delays (say_finished_delays self) self = self)
    by (destruct self; reflexivity).
  destruct (runs_independent_of_acknowledgement uuid start_m continue_m self
              delays (say_finished_delays self)) as [Hstart Hcontinue].
  cbn zeta in Hstart, Hcontinue. rewrite Hself in Hstart, Hcontinue.
  destruct Hstart as (Hs1 & Hs2 & Hs3). destruct Hcontinue as (Hc1 & Hc2 & Hc3).
  split; [|split; [|split; [|split; [|split; [|split]]]]].
  - exact (wait_for_say_finished_timeout (set_say_finished_event false self)
             eq_refl Hto).
  - intros s text siteId Hs. split.
    + apply say_and_wait_eq, Hs.
    + apply times_out_event, Hto.
  - intros s Hs Ht. cbn zeta.
    destruct (handle_continue_speaks continue_m self s Hs Ht) as [He Hev].
    split; [exact He | exact (Hev Hto)].
  - intros cbe text filt sinr Hs Hi Ht. cbn zeta.
    destruct (handle_start_speaks uuid start_m self cbe text filt sinr Hs Hi Ht)
      as [He Hev].
    split; [exact He | exact (Hev Hto)].
  - split; [exact Hc2|]. split; [exact Hc1 | exact Hc3].
  - split; [exact Hs2|]. split; [exact Hs1 | exact Hs3].
  - reflexivity.
Qed.

Lemma speech_timeout_fallback_witness :
  let self0 := init None None [Some 12; None] in
  let self1 := final (handle_start "u1" lights_action self0) in
  let m := DialogueContinueSession.mk "u1" EmptyString "and now" None false in
  times_out self0 /\
  emitted (handle_start "u1" lights_action self0)
  = [TtsSay "kitchen" "u1" "which room"; AsrStartListening "kitchen" "u1";
     DialogueSessionStarted "kitchen" "u1" "lights"] /\
  times_out self1 /\
  session self1 = Some 0 /\
  emitted (handle_continue m self1)
  = [TtsSay "kitchen" "u1" "and now"; AsrStartListening "kitchen" "u1"] /\
  say_finished_event (final (handle_continue m self1)) = false.
Proof.
  intros self0 self1 m.
  assert (H0 : times_out self0) by (unfold times_out; cbn; lia).
  assert (H1 : times_out self1) by exact I.
  destruct (speech_timeout_fallback "u1" lights_action m self0 [] H0)
    as (_ & _ & _ & Hstart & _).
  destruct (Hstart true "which room" (Some ["lights"]) true
              eq_refl eq_refl eq_refl) as (Hs & _).
  destruct (speech_timeout_fallback "u2" lights_action m self1 [] H1)
    as (_ & _ & Hcontinue & _).
  destruct (Hcontinue 0 eq_refl eq_refl) as (Hc & He).
  split; [exact H0|]. split; [exact Hs|]. split; [exact H1|].
  split; [reflexivity|]. split; [exact Hc | exact He].
Defined.

(** * Further properties of the handlers *)

(** ** [start_session] and [end_session] without the bound *)

Lemma end_session_eq reason siteId self s :
  session self = Some s ->
  end_session reason siteId self =
  prepend
    [DialogueSessionEnded (SessionInfo.sessionId (objects self s)) siteId
       (SessionInfo.customData (objects self s)) reason]
    (match session_queue self with
     | [] => ([], set_session None self, Return tt)
     | queued :: rest =>
         start_session queued "default"
           (set_session_queue rest (set_session None self))
     end).
Proof.
  intros Hs. unfold end_session, enough_fuel.
  replace (2 * length (session_queue self) + 2)
    with (S (2 * length (session_queue self) + 1)) by lia.
  rewrite (end_session_fuel_active _ _ _ _ _ Hs).
  destruct (session_queue self) as [|queued rest]; [reflexivity|].
  rewrite start_session_fuel_enough; [reflexivity|].
  unfold enough_fuel. cbn. lia.
Qed.

Lemma start_session_action new_session siteId self cbe text filt sinr :
  DialogueStartSession.init (SessionInfo.start_session (objects self new_session))
  = DialogueAction cbe text filt sinr ->
  let cd := DialogueStartSession.customData
              (SessionInfo.start_session (objects self new_session)) in
  let sid := SessionInfo.sessionId (objects self new_session) in
  let self1 := configured new_session cd filt sinr self in
  start_session new_session siteId self =
  match session self with
  | Some _ =>
      if cbe then
        ([DialogueSessionQueued sid siteId cd;
          DialogueSessionStarted siteId sid cd],
         set_session (Some new_session)
           (set_session_queue (session_queue self ++ [new_session]) self1),
         Return tt)
      else
        ([DialogueSessionStarted siteId sid cd],
         set_session (Some new_session) self1, Return tt)
  | None =>
      ((if truthy text then [TtsSay siteId sid text] else []) ++
       [AsrStartListening siteId sid; DialogueSessionStarted siteId sid cd],
       set_session (Some new_session)
         (if truthy text
          then after_say (set_session (Some new_session) self1)
          else set_session (Some new_session) self1),
       Return tt)
  end.
Proof.
  intros Hi. unfold start_session, enough_fuel.
  replace (2 * length (session_queue self) + 2)
    with (S (2 * length (session_queue self) + 1)) by lia.
  exact (start_session_fuel_action _ _ _ _ _ _ _ _ Hi).
Qed.

Lemma handle_not_recognized_eq m self s :
  session self = Some s ->
  handle_not_recognized m self =
  prepend
    (if SessionInfo.sendIntentNotRecognized (objects self s)
     then [DialogueIntentNotRecognized
             (SessionInfo.sessionId (objects self s))
             (SessionInfo.customData (objects self s))
             (NluIntentNotRecognized.siteId m)
             (NluIntentNotRecognized.input m)]
     else [])
    (end_session INTENT_NOT_RECOGNIZED (NluIntentNotRecognized.siteId m) self).
Proof.
  intros Hs.
  destruct (end_session_returns INTENT_NOT_RECOGNIZED
              (NluIntentNotRecognized.siteId m) self s Hs)
    as (out & self' & Heq & _).
  rewrite Heq. cbn [prepend]. apply try_except_Exception_returns.
  with_session Hs. gen_step.
  destruct (SessionInfo.sendIntentNotRecognized (objects self s));
    gen_step; rewrite Heq; reflexivity.
Qed.

Lemma handle_not_recognized_returns m self :
  exists out self', handle_not_recognized m self = (out, self', Return tt).
Proof.
  destruct (session self) as [s|] eqn:Hs.
  - rewrite (handle_not_recognized_eq _ _ _ Hs).
    destruct (end_session_returns INTENT_NOT_RECOGNIZED
                (NluIntentNotRecognized.siteId m) self s Hs)
      as (out & self' & Heq & _).
    rewrite Heq. cbn. eauto.
  - rewrite (handle_not_recognized_idle _ _ Hs). eauto.
Qed.

Lemma handle_wake_returns uuid wakeword_id detected self :
  exists out self',
    handle_wake uuid wakeword_id detected self = (out, self', Return tt).
Proof.
  rewrite handle_wake_eq. cbn zeta.
  destruct (session self) as [s|] eqn:Hs.
  - match goal with
    | |- context [end_session ?r ?site ?st] =>
        destruct (end_session_returns r site st s Hs)
          as (out & self' & Heq & _)
    end.
    eauto.
  - match goal with
    | |- context [start_session ?r ?site ?st] =>
        destruct (start_session_returns r site st) as (out & self' & Heq & _)
    end.
    eauto.
Qed.

Lemma handle_text_captured_returns m self :
  exists out self', handle_text_captured m self = (out, self', Return tt).
Proof.
  destruct (session self) as [s|] eqn:Hs.
  - rewrite (handle_text_captured_eq _ _ _ Hs). eauto.
  - rewrite (handle_text_captured_idle _ _ Hs). eauto.
Qed.

(** X1. No exception escapes [on_message]: whatever the message and the
    state, the call returns.  So does every handler when its generator is
    driven to the end: its failed assertions are caught and the recursion
    between [start_session] and [end_session] always ends. *)
Theorem on_message_returns uuid msg self :
  outcome (on_message uuid msg self) = Return tt /\
  (forall m, outcome (handle_start uuid m self) = Return tt) /\
  (forall m, outcome (handle_continue m self) = Return tt) /\
  (forall m, outcome (handle_end m self) = Return tt) /\
  (forall m, outcome (handle_text_captured m self) = Return tt) /\
  (forall m, outcome (handle_recognized m self) = Return tt) /\
  (forall m, outcome (handle_not_recognized m self) = Return tt) /\
  (forall wakeword_id detected,
      outcome (handle_wake uuid wakeword_id detected self) = Return tt).
Proof.
  split.
  { rewrite on_message_eq.
    destruct msg as [j m | j m | j m | j | j m | j m | j m | topic j m];
      try reflexivity.
    destruct (_check_sessionId self j); reflexivity. }
  repeat split.
  - intros m.
    destruct (handle_start_activates uuid m self) as (o & cd & s' & Heq & _).
    rewrite Heq. reflexivity.
  - intros m. apply handle_continue_returns.
  - intros m. destruct (handle_end_returns m self) as (o & s' & Heq).
    rewrite Heq. reflexivity.
  - intros m. destruct (handle_text_captured_returns m self) as (o & s' & Heq).
    rewrite Heq. reflexivity.
  - intros m. rewrite handle_recognized_eq. reflexivity.
  - intros m. destruct (handle_not_recognized_returns m self) as (o & s' & Heq).
    rewrite Heq. reflexivity.
  - intros wakeword_id detected.
    destruct (handle_wake_returns uuid wakeword_id detected self)
      as (o & s' & Heq).
    rewrite Heq. reflexivity.
Qed.

(** X2. Without an active session the handlers that need one do nothing:
    the failed assertion is caught, no message is yielded and the state is
    left as it was. *)
Theorem handlers_without_session self :
  session self = None ->
  (forall m, handle_continue m self = ([], self, Return tt)) /\
  (forall m, handle_end m self = ([], self, Return tt)) /\
  (forall m, handle_text_captured m self = ([], self, Return tt)) /\
  (forall m, handle_recognized m self = ([], self, Return tt)) /\
  (forall m, handle_not_recognized m self = ([], self, Return tt)).
Proof.
  intros Hs. repeat split; intros m.
  - apply handle_continue_idle, Hs.
  - apply handle_end_idle, Hs.
  - apply handle_text_captured_idle, Hs.
  - apply handle_recognized_eq.
  - apply handle_not_recognized_idle, Hs.
Qed.

Lemma handlers_without_session_witness :
  session idle = None /\
  handle_not_recognized
    (NluIntentNotRecognized.mk "open the door" "kitchen" "u1") idle
  = ([], idle, Return tt).
Proof.
  split; [reflexivity|].
  destruct (handlers_without_session idle eq_refl) as (_ & _ & _ & _ & H).
  apply H.
Defined.

(** X3. Captured text never changes the manager: with an active session
    [handle_text_captured] stops the listening on the site of the event and
    queries the recognizer with the captured text, the active session's
    intent filter and the active session's id -- not the event's --, and
    leaves the state as it was; [handle_recognized] yields nothing and
    changes nothing. *)
Theorem handle_text_captured_query m self s :
  session self = Some s ->
  handle_text_captured m self =
  ([AsrStopListening (AsrTextCaptured.siteId m)
      (SessionInfo.sessionId (objects self s));
    NluQuery (AsrTextCaptured.text m)
      (SessionInfo.intentFilter (objects self s))
      (SessionInfo.sessionId (objects self s))],
   self, Return tt) /\
  (forall recognition,
      handle_recognized recognition self = ([], self, Return tt)).
Proof.
  intros Hs. split.
  - apply handle_text_captured_eq, Hs.
  - intros recognition. apply handle_recognized_eq.
Qed.

Lemma handle_text_captured_query_witness :
  let self := after [StartSession "u1" lights_action] idle in
  session self = Some 0 /\
  handle_text_captured (AsrTextCaptured.mk "the kitchen" "hall" "u9") self
  = ([AsrStopListening "hall" "u1";
      NluQuery "the kitchen" (Some ["lights"]) "u1"],
     self, Return tt).
Proof.
  intros self. split; [reflexivity|].
  exact (proj1 (handle_text_captured_query
                  (AsrTextCaptured.mk "the kitchen" "hall" "u9") self 0
                  eq_refl)).
Defined.

(** ** Ending a session *)

(** [end_session] reports the end of the active session first and leaves
    the head of the queue, when there is one, as the active session. *)
Lemma end_session_promotes reason siteId self s :
  session self = Some s ->
  exists out self',
    end_session reason siteId self
    = (DialogueSessionEnded (SessionInfo.sessionId (objects self s)) siteId
         (SessionInfo.customData (objects self s)) reason :: out,
       self', Return tt) /\
    Forall ended_nominal out /\
    session self' = hd_error (session_queue self).
Proof.
  intros Hs. rewrite (end_session_eq _ _ _ _ Hs).
  destruct (session_queue self) as [|queued rest].
  - cbn. eexists [], _. split; [reflexivity|]. split; [constructor|].
    reflexivity.
  - destruct (start_session_returns queued "default"
                (set_session_queue rest (set_session None self)))
      as (out & self' & Heq & Hs' & Hn & _).
    rewrite Heq. cbn. eexists _, _. split; [reflexivity|]. split.
    + apply Forall_app. split; [exact Hn|]. repeat constructor.
    + exact Hs'.
Qed.

(** X4. An unrecognized intent ends the active session with reason
    [INTENT_NOT_RECOGNIZED], on the site of the event: the requester is
    told first, with [DialogueIntentNotRecognized], exactly when the session
    asked for it; every session ended later in the run ends with [NOMINAL];
    the head of the queue, when there is one, is the active session
    afterwards. *)
Theorem handle_not_recognized_ends_session m self s :
  session self = Some s ->
  let r := handle_not_recognized m self in
  let sid := SessionInfo.sessionId (objects self s) in
  let cd := SessionInfo.customData (objects self s) in
  let site := NluIntentNotRecognized.siteId m in
  (exists out,
      emitted r
      = (if SessionInfo.sendIntentNotRecognized (objects self s)
         then [DialogueIntentNotRecognized sid cd site
                 (NluIntentNotRecognized.input m)]
         else []) ++
        DialogueSessionEnded sid site cd INTENT_NOT_RECOGNIZED :: out /\
      Forall ended_nominal out) /\
  session (final r) = hd_error (session_queue self).
Proof.
  intros Hs r sid cd site. unfold r.
  rewrite (handle_not_recognized_eq _ _ _ Hs).
  destruct (end_session_promotes INTENT_NOT_RECOGNIZED site self s Hs)
    as (out & self' & Heq & Hn & Hhd).
  fold site. rewrite Heq. cbn. split; [|exact Hhd].
  exists out. split; [reflexivity | exact Hn].
Qed.

Lemma handle_not_recognized_ends_session_witness :
  let self := after [StartSession "u1" lights_action] idle in
  let m := NluIntentNotRecognized.mk "open the door" "hall" "u1" in
  session self = Some 0 /\
  emitted (handle_not_recognized m self)
  = [DialogueIntentNotRecognized "u1" "lights" "hall" "open the door";
     DialogueSessionEnded "u1" "hall" "lights" INTENT_NOT_RECOGNIZED] /\
  session (final (handle_not_recognized m self)) = None.
Proof.
  intros self m. split; [reflexivity|].
  destruct (handle_not_recognized_ends_session m self 0 eq_refl)
    as (_ & H).
  split; [reflexivity | exact H].
Defined.

(** X5. Queued sessions are promoted in the order of the queue: when the
    active session ends, the head of the queue becomes the active session
    and the rest of the queue is left in its order; with an empty queue the
    manager is idle and the only message is the [DialogueSessionEnded]. *)
Theorem handle_end_promotes_in_order m self s :
  session self = Some s ->
  queue_of_actions self ->
  let r := handle_end m self in
  session (final r) = hd_error (session_queue self) /\
  session_queue (final r) = tl (session_queue self) /\
  (session_queue self = [] ->
   emitted r
   = [DialogueSessionEnded (SessionInfo.sessionId (objects self s))
        (SessionInfo.siteId (objects self s))
        (SessionInfo.customData (objects self s)) NOMINAL]).
Proof.
  intros Hs Hq r. unfold r. rewrite (handle_end_eq _ _ _ Hs).
  rewrite (end_session_eq _ _ _ _ Hs). rewrite final_prepend.
  destruct (session_queue self) as [|queued rest] eqn:Hsq.
  - cbn. rewrite Hsq. repeat split; reflexivity.
  - unfold queue_of_actions in Hq. rewrite Hsq in Hq.
    inversion Hq as [|q l [Hlt Hact] _]; subst.
    destruct (DialogueStartSession.init
                (SessionInfo.start_session (objects self queued)))
      as [|cbe text filt sinr] eqn:Hi; [discriminate|].
    erewrite start_session_action by exact Hi.
    cbn [session set_session set_session_queue final fst snd].
    split; [reflexivity|]. split; [|discriminate].
    destruct (truthy text); reflexivity.
Qed.

Lemma handle_end_promotes_in_order_witness :
  let self := after [StartSession "u1" lights_action;
                     StartSession "u2" timer_action;
                     StartSession "u3" lights_action] idle in
  let r := handle_end (DialogueEndSession.mk "u3" EmptyString) self in
  session self = Some 2 /\
  queue_of_actions self /\
  session_queue self = [1; 2] /\
  session (final r) = Some 1 /\
  session_queue (final r) = [2].
Proof.
  intros self r.
  assert (Hq : queue_of_actions self).
  { unfold queue_of_actions.
    replace (session_queue self) with [1; 2] by reflexivity.
    replace (next_ref self) with 3 by reflexivity.
    constructor; [split; [lia | reflexivity]|].
    constructor; [split; [lia | reflexivity]|]. constructor. }
  destruct (handle_end_promotes_in_order
              (DialogueEndSession.mk "u3" EmptyString) self 2 eq_refl Hq)
    as (H1 & H2 & _).
  split; [reflexivity|]. split; [exact Hq|]. split; [reflexivity|].
  split; [exact H1 | exact H2].
Defined.

(** ** The wake word *)

Lemma wake_session_action uuid wakeword_id detected :
  DialogueStartSession.init
    (SessionInfo.start_session (wake_session uuid wakeword_id detected))
  = DialogueAction false EmptyString None false.
Proof. reflexivity. Qed.

(** X6. The wake word preempts the active session and goes before the
    queue: the active session is reported ended with [ABORTED_BY_USER] on
    the detecting site, the wake-word session starts listening at once and
    is the active session, its custom data being the wake word id, and the
    sessions that were queued stay queued in their order.  The wake-word
    session is started on the site "default", not on the detecting site:
    [end_session] promotes it without a site. *)
Theorem handle_wake_preempts uuid wakeword_id detected self s :
  session self = Some s ->
  s < next_ref self ->
  let r := handle_wake uuid wakeword_id detected self in
  let wake_id := (HotwordDetected.siteId detected ++ "-" ++ wakeword_id
                  ++ "-" ++ uuid)%string in
  emitted r
  = [DialogueSessionEnded (SessionInfo.sessionId (objects self s))
       (HotwordDetected.siteId detected)
       (SessionInfo.customData (objects self s)) ABORTED_BY_USER;
     AsrStartListening "default" wake_id;
     DialogueSessionStarted "default" wake_id wakeword_id] /\
  session (final r) = Some (next_ref self) /\
  session_queue (final r) = session_queue self /\
  SessionInfo.customData (objects (final r) (next_ref self)) = wakeword_id /\
  SessionInfo.siteId (objects (final r) (next_ref self))
  = HotwordDetected.siteId detected.
Proof.
  intros Hs Hlt r wake_id. unfold r. rewrite handle_wake_eq. cbn zeta.
  rewrite Hs.
  set (o := wake_session uuid wakeword_id detected).
  set (self0 := set_session_queue (next_ref self :: session_queue self)
                  (snd (alloc_object o self))).
  assert (Hs0 : session self0 = Some s) by exact Hs.
  rewrite (end_session_eq _ _ _ _ Hs0).
  cbn [session_queue self0 set_session_queue].
  assert (Hi : DialogueStartSession.init
                 (SessionInfo.start_session
                    (objects (set_session_queue (session_queue self)
                                (set_session None self0)) (next_ref self)))
               = DialogueAction false EmptyString None false).
  { cbn. rewrite Nat.eqb_refl. reflexivity. }
  rewrite (start_session_action _ _ _ _ _ _ _ Hi).
  cbn. rewrite !Nat.eqb_refl.
  replace (Nat.eqb s (next_ref self)) with false
    by (symmetry; apply Nat.eqb_neq; lia).
  cbn. repeat split; reflexivity.
Qed.

Lemma handle_wake_preempts_witness :
  let self := after [StartSession "u1" lights_action] idle in
  let r := handle_wake "u2" "porcupine" wake_kitchen self in
  session self = Some 0 /\
  0 < next_ref self /\
  emitted r
  = [DialogueSessionEnded "u1" "kitchen" "lights" ABORTED_BY_USER;
     AsrStartListening "default" "kitchen-porcupine-u2";
     DialogueSessionStarted "default" "kitchen-porcupine-u2" "porcupine"] /\
  session (final r) = Some 1.
Proof.
  intros self r.
  assert (Hlt : 0 < next_ref self)
    by (replace (next_ref self) with 1 by reflexivity; lia).
  destruct (handle_wake_preempts "u2" "porcupine" wake_kitchen self 0
              eq_refl Hlt) as (H1 & H2 & _).
  split; [reflexivity|]. split; [exact Hlt|]. split; [exact H1 | exact H2].
Defined.

(** X7. On an idle manager the wake word starts its session at once: it
    listens and is announced on the site "default" (the default of
    [start_session]'s site, which [handle_wake] does not pass), with the
    wake word id as custom data; the queue is left as it was. *)
Theorem handle_wake_starts uuid wakeword_id detected self :
  session self = None ->
  let r := handle_wake uuid wakeword_id detected self in
  let wake_id := (HotwordDetected.siteId detected ++ "-" ++ wakeword_id
                  ++ "-" ++ uuid)%string in
  emitted r
  = [AsrStartListening "default" wake_id;
     DialogueSessionStarted "default" wake_id wakeword_id] /\
  session (final r) = Some (next_ref self) /\
  session_queue (final r) = session_queue self /\
  SessionInfo.siteId (objects (final r) (next_ref self))
  = HotwordDetected.siteId detected.
Proof.
  intros Hs r wake_id. unfold r. rewrite handle_wake_eq. cbn zeta.
  rewrite Hs.
  set (o := wake_session uuid wakeword_id detected).
  assert (Hi : DialogueStartSession.init
                 (SessionInfo.start_session
                    (objects (snd (alloc_object o self)) (next_ref self)))
               = DialogueAction false EmptyString None false).
  { cbn. rewrite Nat.eqb_refl. reflexivity. }
  rewrite (start_session_action _ _ _ _ _ _ _ Hi).
  cbn [session snd alloc_object]. rewrite Hs.
  cbn. rewrite !Nat.eqb_refl. cbn. repeat split; reflexivity.
Qed.

Lemma handle_wake_starts_witness :
  let r := handle_wake "u1" "porcupine" wake_kitchen idle in
  session idle = None /\
  emitted r
  = [AsrStartListening "default" "kitchen-porcupine-u1";
     DialogueSessionStarted "default" "kitchen-porcupine-u1" "porcupine"] /\
  session (final r) = Some 0.
Proof.
  intros r.
  destruct (handle_wake_starts "u1" "porcupine" wake_kitchen idle eq_refl)
    as (H1 & H2 & _).
  split; [reflexivity|]. split; [exact H1 | exact H2].
Defined.

(** ** Starting an action *)

(** X8. An action started on an idle manager: the text, when there is
    one, is spoken, the recognizer starts listening and the session is
    announced, all on the request's site and under the new session id, the
    announcement carrying the request's custom data; the new session is the
    active one and holds the request's custom data, intent filter and
    not-recognized flag; the queue is left as it was. *)
Theorem handle_start_action_idle uuid m self cbe text filt sinr :
  session self = None ->
  DialogueStartSession.init m = DialogueAction cbe text filt sinr ->
  let r := handle_start uuid m self in
  let site := DialogueStartSession.siteId m in
  let cd := DialogueStartSession.customData m in
  let o := objects (final r) (next_ref self) in
  emitted r
  = (if truthy text then [TtsSay site uuid text] else []) ++
    [AsrStartListening site uuid; DialogueSessionStarted site uuid cd] /\
  session (final r) = Some (next_ref self) /\
  session_queue (final r) = session_queue self /\
  SessionInfo.sessionId o = uuid /\
  SessionInfo.siteId o = site /\
  SessionInfo.customData o = cd /\
  SessionInfo.intentFilter o = filt /\
  SessionInfo.sendIntentNotRecognized o = sinr.
Proof.
  intros Hs Hi r site cd o. unfold o, r. rewrite handle_start_eq.
  fold site.
  assert (Hi0 : DialogueStartSession.init
                  (SessionInfo.start_session
                     (objects (snd (alloc_object (SessionInfo.new uuid site m)
                                      self)) (next_ref self)))
                = DialogueAction cbe text filt sinr).
  { cbn. rewrite Nat.eqb_refl. exact Hi. }
  rewrite (start_session_action _ _ _ _ _ _ _ Hi0).
  cbn [session snd alloc_object]. rewrite Hs.
  cbn. rewrite !Nat.eqb_refl. cbn.
  destruct (truthy text); cbn; rewrite ?Nat.eqb_refl; repeat split; reflexivity.
Qed.

Lemma handle_start_action_idle_witness :
  let r := handle_start "u1" lights_action idle in
  session idle = None /\
  DialogueStartSession.init lights_action
  = DialogueAction true "which room" (Some ["lights"]) true /\
  emitted r
  = [TtsSay "kitchen" "u1" "which room"; AsrStartListening "kitchen" "u1";
     DialogueSessionStarted "kitchen" "u1" "lights"] /\
  SessionInfo.intentFilter (objects (final r) 0) = Some ["lights"].
Proof.
  intros r.
  destruct (handle_start_action_idle "u1" lights_action idle true
              "which room" (Some ["lights"]) true eq_refl eq_refl)
    as (H1 & _ & _ & _ & _ & _ & H2 & _).
  split; [reflexivity|]. split; [reflexivity|]. split; [exact H1 | exact H2].
Defined.

(** X9. An action that can be queued, started while a session is
    active, goes to the back of the queue, behind the sessions already
    queued, and nothing is spoken and no listening is started for it: the
    first message is [DialogueSessionQueued] with the new session id, the
    request's site and its custom data. *)
Theorem handle_start_queues_at_back uuid m self s text filt sinr :
  session self = Some s ->
  DialogueStartSession.init m = DialogueAction true text filt sinr ->
  let r := handle_start uuid m self in
  session_queue (final r) = session_queue self ++ [next_ref self] /\
  hd_error (emitted r)
  = Some (DialogueSessionQueued uuid (DialogueStartSession.siteId m)
            (DialogueStartSession.customData m)) /\
  count is_StartListening (emitted r) = 0 /\
  Forall (fun msg => match msg with TtsSay _ _ _ => False | _ => True end)
         (emitted r) /\
  SessionInfo.sessionId (objects (final r) (next_ref self)) = uuid.
Proof.
  intros Hs Hi r. unfold r. rewrite handle_start_eq.
  set (site := DialogueStartSession.siteId m).
  assert (Hi0 : DialogueStartSession.init
                  (SessionInfo.start_session
                     (objects (snd (alloc_object (SessionInfo.new uuid site m)
                                      self)) (next_ref self)))
                = DialogueAction true text filt sinr).
  { cbn. rewrite Nat.eqb_refl. exact Hi. }
  rewrite (start_session_action _ _ _ _ _ _ _ Hi0).
  cbn [session snd alloc_object]. rewrite Hs.
  cbn. rewrite !Nat.eqb_refl. cbn. repeat split; repeat constructor.
Qed.

Lemma handle_start_queues_at_back_witness :
  let self := after [StartSession "u1" lights_action;
                     StartSession "u2" timer_action] idle in
  let r := handle_start "u3" lights_action self in
  session self = Some 1 /\
  DialogueStartSession.init lights_action
  = DialogueAction true "which room" (Some ["lights"]) true /\
  session_queue self = [1] /\
  session_queue (final r) = [1; 2].
Proof.
  intros self r.
  destruct (handle_start_queues_at_back "u3" lights_action self 1
              "which room" (Some ["lights"]) true eq_refl eq_refl)
    as (H1 & _).
  split; [reflexivity|]. split; [reflexivity|]. split; [reflexivity|].
  exact H1.
Defined.

(** ** What no handler writes *)

Lemma same_identity_refl o : same_identity o o.
Proof. repeat split. Qed.

Lemma same_identity_trans a b c :
  same_identity a b -> same_identity b c -> same_identity a c.
Proof.
  unfold same_identity. intros (H1 & H2 & H3 & H4) (H5 & H6 & H7 & H8).
  repeat split; congruence.
Qed.

Lemma configured_same_identity new_session cd filt sinr self q :
  same_identity (objects self q)
                (objects (configured new_session cd filt sinr self) q).
Proof.
  unfold configured, same_identity. cbn.
  destruct (Nat.eqb q new_session); repeat split; reflexivity.
Qed.

(** [start_session] and [end_session] allocate nothing and write none of
    the identity fields, of any object. *)
Lemma session_fuel_identity fuel :
  (forall new_session siteId self,
      next_ref (final (start_session_fuel fuel new_session siteId self))
      = next_ref self /\
      forall q, same_identity
                  (objects self q)
                  (objects
                     (final (start_session_fuel fuel new_session siteId self))
                     q)) /\
  (forall reason siteId self,
      next_ref (final (end_session_fuel fuel reason siteId self))
      = next_ref self /\
      forall q, same_identity
                  (objects self q)
                  (objects (final (end_session_fuel fuel reason siteId self))
                           q)).
Proof.
  induction fuel as [|f [IHstart IHend]].
  { split; intros; (split; [reflexivity | intros; apply same_identity_refl]). }
  split.
  - intros new_session siteId self.
    destruct (DialogueStartSession.init
                (SessionInfo.start_session (objects self new_session)))
      as [text | cbe text filt sinr] eqn:Hi.
    + rewrite (start_session_fuel_notification _ _ _ _ _ Hi). cbn zeta.
      rewrite final_prepend.
      match goal with
      | |- context [end_session_fuel f NOMINAL siteId ?st] =>
          assert (Hst : next_ref st = next_ref self /\
                        forall q, same_identity (objects self q) (objects st q))
            by (destruct (session self), (truthy text);
                (split; [reflexivity | intros; apply same_identity_refl]));
          destruct (IHend NOMINAL siteId st) as [Hn Ho];
          destruct Hst as [Hn' Ho'];
          destruct (end_session_fuel f NOMINAL siteId st)
            as [[out self2] [[]| |]]; cbn in Hn, Ho |- *;
          (split; [congruence
                  | intros q; eapply same_identity_trans;
                    [apply Ho' | apply Ho]])
      end.
    + rewrite (start_session_fuel_action _ _ _ _ _ _ _ _ Hi). cbn zeta.
      destruct (session self) as [s|]; [destruct cbe|destruct (truthy text)];
        (split; [reflexivity | intros q; apply configured_same_identity]).
  - intros reason siteId self.
    destruct (session self) as [s|] eqn:Hs.
    + rewrite (end_session_fuel_active _ _ _ _ _ Hs), final_prepend.
      destruct (session_queue self) as [|queued rest].
      * split; [reflexivity | intros; apply same_identity_refl].
      * exact (IHstart queued "default"
                 (set_session_queue rest (set_session None self))).
    + rewrite (end_session_fuel_idle _ _ _ _ Hs).
      split; [reflexivity | intros; apply same_identity_refl].
Qed.

(** An operation allocates at most one object, a new [SessionInfo] with
    the defaults of its optional fields, and writes no identity field. *)
Lemma perform_identity op self :
  exists self0,
    (self0 = self \/
     exists sessionId siteId m,
       self0 = snd (alloc_object (SessionInfo.new sessionId siteId m) self)) /\
    next_ref (final (perform op self)) = next_ref self0 /\
    forall q, same_identity (objects self0 q)
                            (objects (final (perform op self)) q).
Proof.
  destruct op as [uuid m | m | m | uuid wakeword_id detected]; cbn [perform].
  - rewrite handle_start_eq. unfold start_session.
    eexists. split; [right; eexists _, _, _; reflexivity|].
    apply (proj1 (session_fuel_identity _)).
  - exists self. split; [left; reflexivity|].
    destruct (session self) as [s|] eqn:Hs.
    + destruct (handle_continue_eq m self s Hs)
        as (self' & Heq & _ & _ & Ho & Hother & Hn).
      rewrite Heq. cbn. split; [exact Hn|].
      intros q. destruct (Nat.eq_dec q s) as [->|Hq].
      * rewrite Ho. unfold continued, same_identity. cbn. repeat split.
      * rewrite (Hother q Hq). apply same_identity_refl.
    + rewrite (handle_continue_idle _ _ Hs).
      split; [reflexivity | intros; apply same_identity_refl].
  - exists self. split; [left; reflexivity|].
    destruct (session self) as [s|] eqn:Hs.
    + rewrite (handle_end_eq _ _ _ Hs). unfold end_session.
      apply (proj2 (session_fuel_identity _)).
    + rewrite (handle_end_idle _ _ Hs).
      split; [reflexivity | intros; apply same_identity_refl].
  - rewrite handle_wake_eq. cbn zeta.
    eexists. split; [right; eexists _, _, _; reflexivity|].
    destruct (session self).
    + unfold end_session.
      match goal with
      | |- context [end_session_fuel ?f ?r ?site ?st] =>
          exact (proj2 (session_fuel_identity f) r site st)
      end.
    + unfold start_session. apply (proj1 (session_fuel_identity _)).
Qed.

Lemma keeps_identities_trans a b c :
  keeps_identities a b -> keeps_identities b c -> keeps_identities a c.
Proof.
  unfold keeps_identities. intros [Hn Ho] [Hn' Ho']. split; [lia|].
  intros q Hq. eapply same_identity_trans; [apply Ho, Hq|].
  apply Ho'. lia.
Qed.

Lemma perform_keeps_identities op self :
  keeps_identities self (final (perform op self)).
Proof.
  destruct (perform_identity op self) as (self0 & [->|(sid & site & m & ->)]
                                          & Hn & Ho).
  - split; [lia|]. intros q _. apply Ho.
  - split; [rewrite Hn; cbn; lia|]. intros q Hq.
    specialize (Ho q). cbn in Ho.
    replace (Nat.eqb q (next_ref self)) with false in Ho; [exact Ho|].
    symmetry. apply Nat.eqb_neq. lia.
Qed.

(** X10. A session keeps its identity: whatever requests and wake words
    follow, every session that exists keeps its session id, its site, the
    request it was made from and its [continue_session]; sessions are never
    freed.  Only the custom data, the intent filter and the not-recognized
    flag of a session are ever written. *)
Theorem after_keeps_identities ops self :
  keeps_identities self (after ops self).
Proof.
  revert self. induction ops as [|op ops IH]; intros self; cbn [after].
  - split; [lia|]. intros; apply same_identity_refl.
  - eapply keeps_identities_trans; [apply perform_keeps_identities | apply IH].
Qed.

(** X11. The field [continue_session] of a session is never set: in
    every state the operations reach it is [None] for every session. *)
Theorem continue_session_never_set self q :
  reachable self ->
  SessionInfo.continue_session (objects self q) = None.
Proof.
  intros (siteIds & wakewordIds & delays & ops & ->).
  assert (H : forall q, SessionInfo.continue_session
                          (objects (init siteIds wakewordIds delays) q) = None)
    by reflexivity.
  revert q H. generalize (init siteIds wakewordIds delays).
  induction ops as [|op ops IH]; intros self q H; cbn [after].
  - apply H.
  - apply IH. intros q'.
    destruct (perform_identity op self)
      as (self0 & [->|(sid & site & m & ->)] & _ & Ho);
      destruct (Ho q') as (_ & _ & _ & <-).
    + apply H.
    + cbn. destruct (Nat.eqb q' (next_ref self)); [reflexivity | apply H].
Qed.

Lemma continue_session_never_set_witness :
  let self := after [StartSession "u1" lights_action;
                     ContinueSession
                       (DialogueContinueSession.mk "u1" "hall" "and now"
                          None false)] idle in
  reachable self /\
  SessionInfo.continue_session (objects self 0) = None.
Proof.
  intros self.
  assert (H : reachable self)
    by (exists None, (Some ["porcupine"]), [],
          [StartSession "u1" lights_action;
           ContinueSession
             (DialogueContinueSession.mk "u1" "hall" "and now" None false)];
        reflexivity).
  split; [exact H|]. exact (continue_session_never_set self 0 H).
Defined.

(** ** What is queued *)

Lemma queue_of_enqueued_ext self self' :
  next_ref self' = next_ref self ->
  session_queue self' = session_queue self ->
  (forall r, SessionInfo.start_session (objects self' r)
             = SessionInfo.start_session (objects self r)) ->
  queue_of_enqueued self -> queue_of_enqueued self'.
Proof.
  unfold queue_of_enqueued. intros Hn Hq Ho H. rewrite Hn, Hq.
  eapply Forall_impl; [|exact H]. cbn. intros q [Hlt Ha].
  rewrite Ho. auto.
Qed.

Lemma queue_of_enqueued_tail self queued rest :
  session_queue self = queued :: rest ->
  queue_of_enqueued self ->
  queued < next_ref self /\
  queue_of_enqueued (set_session_queue rest (set_session None self)).
Proof.
  unfold queue_of_enqueued. intros Hq H. rewrite Hq in H.
  inversion H as [|q l [Hlt Ha] Hrest]; subst. split; [exact Hlt|].
  exact Hrest.
Qed.

Lemma session_fuel_queue_of_enqueued fuel :
  (forall new_session siteId self,
      new_session < next_ref self ->
      queue_of_enqueued self ->
      queue_of_enqueued
        (final (start_session_fuel fuel new_session siteId self))) /\
  (forall reason siteId self,
      queue_of_enqueued self ->
      queue_of_enqueued (final (end_session_fuel fuel reason siteId self))).
Proof.
  induction fuel as [|f [IHstart IHend]].
  { split; intros; exact H || assumption. }
  split.
  - intros new_session siteId self Hnew Hq.
    destruct (DialogueStartSession.init
                (SessionInfo.start_session (objects self new_session)))
      as [text | cbe text filt sinr] eqn:Hi.
    + rewrite (start_session_fuel_notification _ _ _ _ _ Hi). cbn zeta.
      rewrite final_prepend.
      match goal with
      | |- context [end_session_fuel f NOMINAL siteId ?st] =>
          assert (Hst : queue_of_enqueued st);
          [| specialize (IHend NOMINAL siteId st Hst);
             destruct (end_session_fuel f NOMINAL siteId st)
               as [[out self2] [[]| |]]; exact IHend ]
      end.
      destruct (session self), (truthy text);
        (eapply queue_of_enqueued_ext; [| | |exact Hq]; reflexivity).
    + rewrite (start_session_fuel_action _ _ _ _ _ _ _ _ Hi). cbn zeta.
      set (cd := DialogueStartSession.customData
                   (SessionInfo.start_session (objects self new_session))).
      assert (H1 : queue_of_enqueued (configured new_session cd filt sinr self)).
      { eapply queue_of_enqueued_ext; [| | |exact Hq]; try reflexivity.
        intros r. apply configured_start_session. }
      destruct (session self) as [s|]; [destruct cbe|].
      * unfold queue_of_enqueued in *.
        cbn [final fst snd session_queue set_session set_session_queue
             next_ref objects] in *.
        apply Forall_app. split; [exact H1|]. constructor; [|constructor].
        split; [exact Hnew|]. rewrite configured_start_session, Hi.
        reflexivity.
      * exact H1.
      * destruct (truthy text); exact H1.
  - intros reason siteId self Hq.
    destruct (session self) as [s|] eqn:Hs.
    + rewrite (end_session_fuel_active _ _ _ _ _ Hs), final_prepend.
      destruct (session_queue self) as [|queued rest] eqn:Hsq.
      * eapply queue_of_enqueued_ext; [| | |exact Hq]; try reflexivity;
          cbn; rewrite Hsq; reflexivity.
      * destruct (queue_of_enqueued_tail _ _ _ Hsq Hq) as [Hlt Hrest].
        apply IHstart; [exact Hlt | exact Hrest].
    + rewrite (end_session_fuel_idle _ _ _ _ Hs). exact Hq.
Qed.

Lemma queue_of_enqueued_alloc o self :
  queue_of_enqueued self -> queue_of_enqueued (snd (alloc_object o self)).
Proof.
  unfold queue_of_enqueued. cbn. intros H.
  eapply Forall_impl; [|exact H]. cbn. intros q [Hlt Ha].
  split; [lia|]. replace (Nat.eqb q (next_ref self)) with false; [exact Ha|].
  symmetry. apply Nat.eqb_neq. lia.
Qed.

Lemma perform_queue_of_enqueued op self :
  queue_of_enqueued self -> queue_of_enqueued (final (perform op self)).
Proof.
  intros Hq. destruct op as [uuid m | m | m | uuid wakeword_id detected];
    cbn [perform].
  - rewrite handle_start_eq. unfold start_session.
    apply (proj1 (session_fuel_queue_of_enqueued _)).
    + cbn. lia.
    + apply queue_of_enqueued_alloc. exact Hq.
  - destruct (session self) as [s|] eqn:Hs.
    + destruct (handle_continue_eq m self s Hs)
        as (self' & Heq & _ & Hsq & Ho & Hother & Hn).
      rewrite Heq. cbn.
      eapply queue_of_enqueued_ext; [exact Hn|exact Hsq| |exact Hq].
      intros r. destruct (Nat.eq_dec r s) as [->|Hr].
      * rewrite Ho. reflexivity.
      * rewrite (Hother r Hr). reflexivity.
    + rewrite (handle_continue_idle _ _ Hs). exact Hq.
  - destruct (session self) as [s|] eqn:Hs.
    + rewrite (handle_end_eq _ _ _ Hs). unfold end_session.
      apply (proj2 (session_fuel_queue_of_enqueued _)). exact Hq.
    + rewrite (handle_end_idle _ _ Hs). exact Hq.
  - rewrite handle_wake_eq. cbn zeta.
    set (o := wake_session uuid wakeword_id detected).
    pose proof (queue_of_enqueued_alloc o self Hq) as H0.
    assert (Hi : forall st,
               objects st = objects (snd (alloc_object o self)) ->
               DialogueStartSession.init
                 (SessionInfo.start_session (objects st (next_ref self)))
               = DialogueAction false EmptyString None false).
    { intros st ->. cbn. rewrite Nat.eqb_refl. reflexivity. }
    destruct (session self) as [s|] eqn:Hs.
    + set (self0 := set_session_queue (next_ref self :: session_queue self)
                      (snd (alloc_object o self))).
      assert (Hs0 : session self0 = Some s) by exact Hs.
      rewrite (end_session_eq _ _ _ _ Hs0), final_prepend.
      cbn [session_queue self0 set_session_queue].
      rewrite (start_session_action _ _ _ _ _ _ _
                 (Hi (set_session_queue (session_queue self)
                        (set_session None self0)) eq_refl)).
      cbn [session set_session set_session_queue truthy final fst snd].
      eapply queue_of_enqueued_ext; [| | |exact H0]; try reflexivity.
      intros r. etransitivity; [apply configured_start_session | reflexivity].
    + rewrite (start_session_action _ _ _ _ _ _ _
                 (Hi (snd (alloc_object o self)) eq_refl)).
      cbn [session snd alloc_object]. rewrite Hs.
      cbn [truthy final fst snd].
      eapply queue_of_enqueued_ext; [| | |exact H0]; try reflexivity.
      intros r. etransitivity; [apply configured_start_session | reflexivity].
Qed.

(** X12. Only actions that can be enqueued are ever queued: in every
    state the operations reach, each queued session was made from an action
    request with [canBeEnqueued] set.  A notification, an action that cannot
    be enqueued and a wake-word session are never left in the queue. *)
Theorem reachable_queue_of_enqueued self :
  reachable self -> queue_of_enqueued self.
Proof.
  intros (siteIds & wakewordIds & delays & ops & ->).
  assert (H : queue_of_enqueued (init siteIds wakewordIds delays))
    by constructor.
  revert H. generalize (init siteIds wakewordIds delays).
  induction ops as [|op ops IH]; intros self H; cbn [after].
  - exact H.
  - apply IH. apply perform_queue_of_enqueued. exact H.
Qed.

Lemma reachable_queue_of_enqueued_witness :
  let ops := [StartSession "u1" lights_action; StartSession "u2" notice;
              StartSession "u3" urgent_action; StartSession "u4" timer_action;
              HandleWakeword "u5" "porcupine" wake_kitchen] in
  reachable (after ops idle) /\
  session_queue (after ops idle) = [3] /\
  queue_of_enqueued (after ops idle).
Proof.
  intros ops.
  assert (H : reachable (after ops idle))
    by (exists None, (Some ["porcupine"]), [], ops; reflexivity).
  split; [exact H|]. split; [reflexivity|].
  exact (reachable_queue_of_enqueued (after ops idle) H).
Defined.

(** ** The filters of [on_message] *)

Lemma _check_siteId_outside self json_payload :
  siteIds self <> [] ->
  ~ In (get_default (json_siteId json_payload) "default") (siteIds self) ->
  _check_siteId self json_payload = false.
Proof.
  unfold _check_siteId. intros Hne Hout.
  destruct (siteIds self) as [|site sites] eqn:Hsites; [congruence|].
  destruct (existsb _ (site :: sites)) eqn:He; [|reflexivity].
  apply existsb_exists in He. destruct He as (x & Hin & Hx).
  apply String.eqb_eq in Hx. subst x. contradiction.
Qed.

(** X13. A manager restricted to some sites ignores the session requests
    and wake words of every other site: for a start-session, continue-session
    or end-session request, or a wake word, whose site is not one of
    [siteIds] the site check fails, and the message changes nothing and
    sends nothing.  A payload without a site counts as site "default". *)
Theorem on_message_site_filter uuid msg json_payload self :
  site_filtered msg = Some json_payload ->
  siteIds self <> [] ->
  ~ In (get_default (json_siteId json_payload) "default") (siteIds self) ->
  _check_siteId self json_payload = false /\
  on_message uuid msg self = ([], self, Return tt).
Proof.
  intros Hmsg Hne Hout.
  split; [exact (_check_siteId_outside self json_payload Hne Hout)|].
  rewrite on_message_eq.
  destruct msg as [j m | j m | j m | j | j m | j m | j m | topic j m];
    cbn [site_filtered] in Hmsg; try discriminate; reflexivity.
Qed.

Lemma on_message_site_filter_witness :
  let self := init (Some ["kitchen"]) (Some ["porcupine"]) [] in
  let msg := OnStartSession (mkJson None None) lights_action in
  siteIds self <> [] /\
  ~ In "default" (siteIds self) /\
  _check_siteId self (mkJson None None) = false /\
  on_message "u1" msg self = ([], self, Return tt).
Proof.
  intros self msg.
  assert (Hne : siteIds self <> []) by (cbn; discriminate).
  assert (Hout : ~ In "default" (siteIds self))
    by (cbn; intros [H|[]]; discriminate H).
  split; [exact Hne|]. split; [exact Hout|].
  exact (on_message_site_filter "u1" msg (mkJson None None) self
           eq_refl Hne Hout).
Defined.

(** X14. The events of the speech and recognition services never touch
    the sessions: a speech-finished event sends nothing and leaves the
    active session, the queue and every session object as they were,
    whether its session id matches or not; a recognized intent sends
    nothing and changes nothing at all; captured text leaves the state as
    it was. *)
Theorem on_message_events_keep_sessions uuid self :
  (forall json_payload,
      let r := on_message uuid (OnSayFinished json_payload) self in
      emitted r = [] /\ same_store self (final r)) /\
  (forall json_payload m,
      on_message uuid (OnIntent json_payload m) self = ([], self, Return tt)) /\
  (forall json_payload m,
      final (on_message uuid (OnTextCaptured json_payload m) self) = self).
Proof.
  split; [|split].
  - intros j. cbn zeta. rewrite on_message_eq.
    destruct (_check_sessionId self j); cbn; repeat split; reflexivity.
  - intros j m. apply on_message_eq.
  - intros j m. rewrite on_message_eq. reflexivity.
Qed.

(** ** Speaking *)

(** X15. [say_and_wait] with an active session sends exactly one
    [TtsSay], under the active session's id, and always returns: a timeout
    of the wait is caught.  It leaves the sessions as they are.  The event
    is set afterwards exactly when the acknowledgement came before the
    timeout; an acknowledgement that was pending before the sentence was
    sent is discarded: the run does not depend on the event's value. *)
Theorem say_and_wait_acknowledged text siteId self s :
  session self = Some s ->
  let r := say_and_wait text siteId self in
  emitted r = [TtsSay siteId (SessionInfo.sessionId (objects self s)) text] /\
  outcome r = Return tt /\
  same_store self (final r) /\
  say_finished_event (final r)
  = match say_finished_delays self with
    | Some d :: _ => Nat.ltb d (say_finished_timeout self)
    | _ => false
    end /\
  (forall pending,
      say_and_wait text siteId (set_say_finished_event pending self) = r).
Proof.
  intros Hs r. unfold r. rewrite (say_and_wait_eq _ _ _ _ Hs).
  split; [reflexivity|]. split; [reflexivity|].
  split; [repeat split|]. split; [reflexivity|].
  intros pending.
  rewrite (say_and_wait_eq text siteId (set_say_finished_event pending self)
             s Hs).
  reflexivity.
Qed.

Lemma say_and_wait_acknowledged_witness :
  let self := after [StartSession "u1" lights_action]
                (init None None [Some 3; Some 12]) in
  let r := say_and_wait "ready" "kitchen" self in
  session self = Some 0 /\
  say_finished_event self = true /\
  emitted r = [TtsSay "kitchen" "u1" "ready"] /\
  outcome r = Return tt /\
  say_finished_event (final r) = false.
Proof.
  intros self r.
  destruct (say_and_wait_acknowledged "ready" "kitchen" self 0 eq_refl)
    as (H1 & H2 & _ & H3 & _).
  split; [reflexivity|]. split; [reflexivity|]. split; [exact H1|].
  split; [exact H2 | exact H3].
Defined.

(** ** Starting and ending *)

(** X16. A session started on an idle manager with an empty queue and
    then ended leaves the manager idle again: ending it sends one
    [DialogueSessionEnded] with reason [NOMINAL], carrying the session id
    given at the start and the site and custom data of the start request,
    and afterwards no session is active and the queue is empty. *)
Theorem start_then_end_roundtrip uuid m e self cbe text filt sinr :
  session self = None ->
  session_queue self = [] ->
  DialogueStartSession.init m = DialogueAction cbe text filt sinr ->
  let self1 := final (handle_start uuid m self) in
  let r := handle_end e self1 in
  r = ([DialogueSessionEnded uuid (DialogueStartSession.siteId m)
          (DialogueStartSession.customData m) NOMINAL],
       set_session None self1, Return tt) /\
  session_queue (final r) = [].
Proof.
  intros Hs Hq Hi self1 r.
  assert (Hi0 : DialogueStartSession.init
                  (SessionInfo.start_session
                     (objects (snd (alloc_object
                                      (SessionInfo.new uuid
                                         (DialogueStartSession.siteId m) m)
                                      self)) (next_ref self)))
                = DialogueAction cbe text filt sinr).
  { cbn. rewrite Nat.eqb_refl. exact Hi. }
  assert (H1 : session self1 = Some (next_ref self) /\
               session_queue self1 = [] /\
               SessionInfo.sessionId (objects self1 (next_ref self)) = uuid /\
               SessionInfo.siteId (objects self1 (next_ref self))
               = DialogueStartSession.siteId m /\
               SessionInfo.customData (objects self1 (next_ref self))
               = DialogueStartSession.customData m).
  { unfold self1. rewrite handle_start_eq.
    rewrite (start_session_action _ _ _ _ _ _ _ Hi0).
    cbn [session snd alloc_object]. rewrite Hs.
    destruct (truthy text); cbn; rewrite ?Nat.eqb_refl; cbn;
      rewrite ?Nat.eqb_refl; repeat split; assumption || reflexivity. }
  destruct H1 as (Hs1 & Hq1 & Hid & Hsite & Hcd).
  unfold r. rewrite (handle_end_eq _ _ _ Hs1), (end_session_eq _ _ _ _ Hs1).
  rewrite Hq1, Hid, Hsite, Hcd. cbn. split; [reflexivity | exact Hq1].
Qed.

Lemma start_then_end_roundtrip_witness :
  let self1 := final (handle_start "u1" lights_action idle) in
  let r := handle_end (DialogueEndSession.mk "u1" EmptyString) self1 in
  session idle = None /\
  session_queue idle = [] /\
  emitted r = [DialogueSessionEnded "u1" "kitchen" "lights" NOMINAL] /\
  session (final r) = None.
Proof.
  intros self1 r.
  destruct (start_then_end_roundtrip "u1" lights_action
              (DialogueEndSession.mk "u1" EmptyString) idle true "which room"
              (Some ["lights"]) true eq_refl eq_refl eq_refl) as (H & _).
  split; [reflexivity|]. split; [reflexivity|].
  split; [exact (f_equal emitted H) | exact (f_equal (fun x => session (final x)) H)].
Defined.

(** ** Continuing *)

(** X17. Continuing a session stays inside it: the text, when there is
    one, is spoken and the listening started on the site the session was
    created with and under its id; the active session and the queue are
    the same afterwards, no other session is touched, and the not-recognized
    flag of the active session is the request's, whatever it was. *)
Theorem handle_continue_frame m self s :
  session self = Some s ->
  let r := handle_continue m self in
  let site := SessionInfo.siteId (objects self s) in
  let sid := SessionInfo.sessionId (objects self s) in
  emitted r
  = (if truthy (DialogueContinueSession.text m)
     then [TtsSay site sid (DialogueContinueSession.text m)] else []) ++
    [AsrStartListening site sid] /\
  session (final r) = Some s /\
  session_queue (final r) = session_queue self /\
  (forall q, q <> s -> objects (final r) q = objects self q) /\
  SessionInfo.sendIntentNotRecognized (objects (final r) s)
  = DialogueContinueSession.sendIntentNotRecognized m.
Proof.
  intros Hs r site sid. unfold r.
  destruct (handle_continue_eq m self s Hs)
    as (self' & Heq & Hs' & Hq & Ho & Hother & _).
  rewrite Heq. cbn [emitted final fst snd].
  split; [reflexivity|]. split; [exact Hs'|]. split; [exact Hq|].
  split; [exact Hother|]. rewrite Ho. reflexivity.
Qed.

Lemma handle_continue_frame_witness :
  let self := after [StartSession "u1" lights_action;
                     StartSession "u2" timer_action] idle in
  let m := DialogueContinueSession.mk "u2" EmptyString "how many minutes"
             None true in
  let r := handle_continue m self in
  session self = Some 1 /\
  emitted r = [TtsSay "kitchen" "u2" "how many minutes";
               AsrStartListening "kitchen" "u2"] /\
  session_queue (final r) = [1] /\
  objects (final r) 0 = objects self 0.
Proof.
  intros self m r.
  destruct (handle_continue_frame m self 1 eq_refl) as (H1 & _ & H2 & H3 & _).
  split; [reflexivity|]. split; [exact H1|]. split; [exact H2|].
  apply H3. discriminate.
Defined.

(** X18. Every start-session request is answered: whatever the request
    and the state, [handle_start] returns, its last message is
    [DialogueSessionStarted] with the new session id on the request's site,
    every session it ends before that ends with [NOMINAL], and the session
    it created is the active one afterwards. *)
Theorem handle_start_always_announces uuid m self :
  let r := handle_start uuid m self in
  (exists out cd,
      emitted r
      = out ++ [DialogueSessionStarted (DialogueStartSession.siteId m) uuid cd]
      /\ Forall ended_nominal out) /\
  outcome r = Return tt /\
  session (final r) = Some (next_ref self) /\
  SessionInfo.sessionId (objects (final r) (next_ref self)) = uuid.
Proof.
  cbn zeta. rewrite handle_start_eq.
  destruct (start_session_returns (next_ref self) (DialogueStartSession.siteId m)
              (snd (alloc_object
                      (SessionInfo.new uuid (DialogueStartSession.siteId m) m)
                      self)))
    as (out & self' & Heq & Hs & Hn & Hid).
  rewrite Heq. cbn [emitted final outcome fst snd].
  assert (Hsid : SessionInfo.sessionId (objects self' (next_ref self)) = uuid).
  { rewrite Hid. cbn. rewrite Nat.eqb_refl. reflexivity. }
  split; [|split; [reflexivity|split; [exact Hs | exact Hsid]]].
  exists out, (SessionInfo.customData (objects self' (next_ref self))).
  split; [|exact Hn]. unfold started. rewrite Hsid. reflexivity.
Qed.

(** ** What the dispatch drives *)

(** X19. [on_message] drives no handler: whatever the message and the
    state, nothing is published and no session is started, ended or
    changed.  The generators of the handlers are built and never iterated:
    [run_coroutine_threadsafe] refuses them with a [TypeError] that
    [on_message] catches, or they are dropped.  All a message can change is
    the speech-finished event, which a speech-finished message with the
    active session's id sets. *)
Theorem on_message_drives_no_handler uuid msg self :
  let r := on_message uuid msg self in
  emitted r = [] /\
  same_store self (final r) /\
  final r = match msg with
            | OnSayFinished json_payload =>
                if _check_sessionId self json_payload
                then set_say_finished_event true self
                else self
            | _ => self
            end.
Proof.
  cbn zeta. rewrite on_message_eq.
  destruct msg as [j m | j m | j m | j | j m | j m | j m | topic j m];
    try (repeat split; reflexivity).
  destruct (_check_sessionId self j); repeat split; reflexivity.
Qed.
